(** * Guestbook: the submission handler [Create] of internal/handler/home.go

    A shallow embedding of the handler and of the Go library functions it
    calls, followed by the properties of the submission pipeline.

    Go strings are byte sequences: they are modelled by [string], whose
    characters ([ascii]) are the bytes.  A [net.IP] is a byte slice and is
    modelled by [list Z]; the nil slice is the empty list. *)

From Stdlib Require Import ZArith Lia Ascii String List.
From stdpp Require Import gmap strings.

Local Open Scope Z_scope.

(** Numeric value of a byte. *)
Definition byteZ (c : ascii) : Z := Z.of_N (N_of_ascii c).

Definition LF : ascii := ascii_of_nat 10.
Definition CR : ascii := ascii_of_nat 13.

(** Go's [s[i:j]] and [s[i:]] on strings, for indexes in range. *)
Definition slice (s : string) (i j : nat) : string :=
  String.substring i (j - i) s.

Definition sliceFrom (s : string) (i : nat) : string :=
  String.substring i (String.length s - i) s.

(** ** Package unicode/utf8 *)
Module utf8.

Definition RuneError : Z := 65533.
Definition RuneSelf : Z := 128.

(** The table [first] together with [acceptRanges]: for a leading byte of a
    multi-byte sequence, the length of the sequence and the range accepted
    for the second byte.  [None] stands for the entries [as] (ASCII) and
    [xx] (invalid), which [DecodeRuneInString] treats before looking at the
    size. *)
Definition first (b : Z) : option (nat * Z * Z) :=
  if b <? 194 then None
  else if b <? 224 then Some (2%nat, 128, 191)
  else if b =? 224 then Some (3%nat, 160, 191)
  else if b <? 237 then Some (3%nat, 128, 191)
  else if b =? 237 then Some (3%nat, 128, 159)
  else if b <? 240 then Some (3%nat, 128, 191)
  else if b =? 240 then Some (4%nat, 144, 191)
  else if b <? 244 then Some (4%nat, 128, 191)
  else if b =? 244 then Some (4%nat, 128, 143)
  else None.

Definition cont (b : Z) : bool := (128 <=? b) && (b <=? 191).

(** [DecodeRuneInString s]: the first rune of [s] and its width in bytes;
    [(RuneError, 0)] for the empty string and [(RuneError, 1)] for an
    invalid encoding. *)
Definition DecodeRuneInString (s : string) : Z * nat :=
  match s with
  | EmptyString => (RuneError, 0%nat)
  | String c0 t0 =>
    let s0 := byteZ c0 in
    match first s0 with
    | None => if s0 <? RuneSelf then (s0, 1%nat) else (RuneError, 1%nat)
    | Some (sz, lo, hi) =>
      if (String.length s <? sz)%nat then (RuneError, 1%nat) else
      match t0 with
      | EmptyString => (RuneError, 1%nat)
      | String c1 t1 =>
        let s1 := byteZ c1 in
        if (s1 <? lo) || (hi <? s1) then (RuneError, 1%nat) else
        if (sz <=? 2)%nat then
          (Z.lor (Z.shiftl (Z.land s0 31) 6) (Z.land s1 63), 2%nat)
        else
        match t1 with
        | EmptyString => (RuneError, 1%nat)
        | String c2 t2 =>
          let s2 := byteZ c2 in
          if negb (cont s2) then (RuneError, 1%nat) else
          if (sz <=? 3)%nat then
            (Z.lor (Z.lor (Z.shiftl (Z.land s0 15) 12)
                          (Z.shiftl (Z.land s1 63) 6))
                   (Z.land s2 63), 3%nat)
          else
          match t2 with
          | EmptyString => (RuneError, 1%nat)
          | String c3 _ =>
            let s3 := byteZ c3 in
            if negb (cont s3) then (RuneError, 1%nat) else
            (Z.lor (Z.lor (Z.lor (Z.shiftl (Z.land s0 7) 18)
                                 (Z.shiftl (Z.land s1 63) 12))
                          (Z.shiftl (Z.land s2 63) 6))
                   (Z.land s3 63), 4%nat)
          end
        end
      end
    end
  end.

(** [RuneStart b]: [b] is not a continuation byte. *)
Definition RuneStart (b : Z) : bool := negb (Z.land b 192 =? 128).

Definition byteAt (s : string) (i : nat) : Z :=
  match String.get i s with Some c => byteZ c | None => 0 end.

(** The backwards scan of [DecodeLastRuneInString]: from [start], step down
    to the nearest rune start, not below [lim]; at most three steps. *)
Fixpoint backToStart (s : string) (lim : nat) (steps : nat) (start : Z) : Z :=
  match steps with
  | O => start
  | S k =>
    if start <? Z.of_nat lim then start
    else if RuneStart (byteAt s (Z.to_nat start)) then start
    else backToStart s lim k (start - 1)
  end.

(** [DecodeLastRuneInString s]: the last rune of [s] and its width. *)
Definition DecodeLastRuneInString (s : string) : Z * nat :=
  let e := String.length s in
  match e with
  | O => (RuneError, 0%nat)
  | S start0 =>
    let r := byteAt s start0 in
    if r <? RuneSelf then (r, 1%nat) else
    let lim := (e - 4)%nat in
    let start := backToStart s lim 4 (Z.of_nat start0 - 1) in
    let start := Z.to_nat (Z.max start 0) in
    let '(r, size) := DecodeRuneInString (slice s start e) in
    if negb (start + size =? e)%nat then (RuneError, 1%nat) else (r, size)
  end.

End utf8.

(** ** Package unicode *)
Module unicode.

(** [IsSpace r]: the Latin-1 spaces, then the rest of the White_Space
    property. *)
Definition IsSpace (r : Z) : bool :=
  if r <=? 255 then
    ((9 <=? r) && (r <=? 13)) || (r =? 32) || (r =? 133) || (r =? 160)
  else
    (r =? 5760) || ((8192 <=? r) && (r <=? 8202)) || (r =? 8232) ||
    (r =? 8233) || (r =? 8239) || (r =? 8287) || (r =? 12288).

End unicode.

(** ** Package strings *)
Module strings.

(** [Join elems sep]. *)
Fixpoint Join (elems : list string) (sep : string) : string :=
  match elems with
  | [] => EmptyString
  | [x] => x
  | x :: rest => x +:+ sep +:+ Join rest sep
  end.

(** [Split s sep] for a separator of one byte, which is what both call
    sites of the handler pass: the pieces of [s] between the occurrences of
    [sep]; never the empty list. *)
Fixpoint Split (s : string) (sep : ascii) : list string :=
  match s with
  | EmptyString => [EmptyString]
  | String c s' =>
    if Ascii.eqb c sep then EmptyString :: Split s' sep
    else match Split s' sep with
         | [] => [String c EmptyString]
         | piece :: pieces => String c piece :: pieces
         end
  end.

(** [IndexByte s c]: the index of the first [c] in [s], or [-1]. *)
Fixpoint IndexByte (s : string) (c : ascii) : Z :=
  match s with
  | EmptyString => -1
  | String d s' =>
    if Ascii.eqb d c then 0
    else let i := IndexByte s' c in if i <? 0 then -1 else i + 1
  end.

(** [Contains s substr]. *)
Fixpoint Contains (s substr : string) : bool :=
  String.prefix substr s ||
  match s with
  | EmptyString => false
  | String _ s' => Contains s' substr
  end.

(** Membership of a byte in an ASCII cutset. *)
Fixpoint inSet (cutset : string) (c : ascii) : bool :=
  match cutset with
  | EmptyString => false
  | String d cutset' => Ascii.eqb c d || inSet cutset' c
  end.

Fixpoint trimLeftASCII (s cutset : string) : string :=
  match s with
  | EmptyString => EmptyString
  | String c s' => if inSet cutset c then trimLeftASCII s' cutset else s
  end.

Fixpoint trimRightASCII (s cutset : string) : string :=
  match s with
  | EmptyString => EmptyString
  | String c s' =>
    match trimRightASCII s' cutset with
    | EmptyString => if inSet cutset c then EmptyString else String c EmptyString
    | kept => String c kept
    end
  end.

(** Every byte of [s] is in the cutset. *)
Fixpoint onlyBytes (cutset s : string) : bool :=
  match s with
  | EmptyString => true
  | String c s' => inSet cutset c && onlyBytes cutset s'
  end.

(** [Trim s cutset] for a cutset of ASCII bytes (the handler passes
    ["[]"]): all leading and trailing bytes of [s] that are in the cutset
    are removed. *)
Definition Trim (s cutset : string) : string :=
  trimLeftASCII (trimRightASCII s cutset) cutset.

Fixpoint indexFuncFrom (f : Z -> bool) (truth : bool)
    (fuel : nat) (s : string) (i : nat) : Z :=
  match fuel with
  | O => -1
  | S fuel' =>
    if (String.length s <=? i)%nat then -1 else
    let '(r, w) := utf8.DecodeRuneInString (sliceFrom s i) in
    if Bool.eqb (f r) truth then Z.of_nat i
    else indexFuncFrom f truth fuel' s (i + w)
  end.

(** [indexFunc s f truth]: the byte index of the first rune [r] of [s] with
    [f r = truth], or [-1]. *)
Definition indexFunc (s : string) (f : Z -> bool) (truth : bool) : Z :=
  indexFuncFrom f truth (String.length s) s 0.

Fixpoint lastIndexFuncFrom (f : Z -> bool) (truth : bool)
    (fuel : nat) (s : string) (i : nat) : Z :=
  match fuel with
  | O => -1
  | S fuel' =>
    if (i =? 0)%nat then -1 else
    let '(r, size) := utf8.DecodeLastRuneInString (slice s 0 i) in
    let i' := (i - size)%nat in
    if Bool.eqb (f r) truth then Z.of_nat i'
    else lastIndexFuncFrom f truth fuel' s i'
  end.

(** [lastIndexFunc s f truth]: the byte index of the last rune [r] of [s]
    with [f r = truth], or [-1]. *)
Definition lastIndexFunc (s : string) (f : Z -> bool) (truth : bool) : Z :=
  lastIndexFuncFrom f truth (String.length s) s (String.length s).

Definition TrimLeftFunc (s : string) (f : Z -> bool) : string :=
  let i := indexFunc s f false in
  if i =? -1 then EmptyString else sliceFrom s (Z.to_nat i).

Definition TrimRightFunc (s : string) (f : Z -> bool) : string :=
  let i := lastIndexFunc s f false in
  let i' :=
    if (0 <=? i) && (utf8.RuneSelf <=? utf8.byteAt s (Z.to_nat i)) then
      let '(_, wid) := utf8.DecodeRuneInString (sliceFrom s (Z.to_nat i)) in
      i + Z.of_nat wid
    else i + 1 in
  slice s 0 (Z.to_nat i').

Definition TrimFunc (s : string) (f : Z -> bool) : string :=
  TrimRightFunc (TrimLeftFunc s f) f.

(** [TrimSpace s]: [s] without its leading and trailing white space, as
    defined by Unicode.  (The library's loops over ASCII bytes are a fast
    path that computes the same string as [TrimFunc s unicode.IsSpace].) *)
Definition TrimSpace (s : string) : string := TrimFunc s unicode.IsSpace.

End strings.

(** ** The two compiled patterns of the handler *)

(** [newlineRegex] is the pattern [\r?\n].  [newlineRegex_ReplaceAllString
    src repl] replaces, from left to right, every match of it in [src] by
    [repl] (a replacement text without [$], as the handler's [" "]): at a
    carriage return followed by a line feed both bytes are one match, at a
    line feed the byte is a match, and any other byte is copied. *)
Fixpoint newlineRegex_ReplaceAllString (src repl : string) : string :=
  match src with
  | EmptyString => EmptyString
  | String c rest =>
    if Ascii.eqb c CR then
      match rest with
      | String c' rest' =>
        if Ascii.eqb c' LF then repl +:+ newlineRegex_ReplaceAllString rest' repl
        else String c (newlineRegex_ReplaceAllString rest repl)
      | EmptyString => String c EmptyString
      end
    else if Ascii.eqb c LF then repl +:+ newlineRegex_ReplaceAllString rest repl
    else String c (newlineRegex_ReplaceAllString rest repl)
  end.

(** ** Package net (with net/netip, which [net.ParseIP] parses with) *)
Module net.

(** [net.IP]: a slice of bytes; the nil address is the empty list. *)
Definition IP : Type := list Z.

Definition isDigit (c : ascii) : bool := (48 <=? byteZ c) && (byteZ c <=? 57).

(** [parseIPv4Fields]: the loop over the bytes of a dotted-decimal address.
    [atStart] is [i == 0], [prevDot] is [s[i-1] == '.'], [fields] are the
    [pos] octets stored so far. *)
Fixpoint parseIPv4Fields (s : string) (atStart prevDot : bool)
    (val digLen : Z) (fields : list Z) : option (list Z) :=
  match s with
  | EmptyString =>
    if (length fields <? 3)%nat then None else Some (fields ++ [val])
  | String c rest =>
    if isDigit c then
      if (digLen =? 1) && (val =? 0) then None else
      let val' := val * 10 + (byteZ c - 48) in
      if 255 <? val' then None
      else parseIPv4Fields rest false false val' (digLen + 1) fields
    else if Ascii.eqb c "." then
      if atStart || String.eqb rest EmptyString || prevDot then None
      else if (length fields =? 3)%nat then None
      else parseIPv4Fields rest false true 0 0 (fields ++ [val])
    else None
  end.

Definition parseIPv4 (s : string) : option (list Z) :=
  parseIPv4Fields s true false 0 0 [].

Definition hexVal (c : ascii) : option Z :=
  let b := byteZ c in
  if (48 <=? b) && (b <=? 57) then Some (b - 48)
  else if (97 <=? b) && (b <=? 102) then Some (b - 97 + 10)
  else if (65 <=? b) && (b <=? 70) then Some (b - 65 + 10)
  else None.

(** The inner loop of [parseIPv6] over the hex digits of one group: the
    value, the number [off] of digits read and the rest of the string;
    [None] on a fifth digit or a value above 0xFFFF. *)
Fixpoint hexGroup (s : string) (off : nat) (acc : Z) : option (Z * nat * string) :=
  match s with
  | EmptyString => Some (acc, off, s)
  | String c rest =>
    match hexVal c with
    | None => Some (acc, off, s)
    | Some d =>
      let acc' := Z.shiftl acc 4 + d in
      if (3 <? off)%nat then None
      else if 65535 <? acc' then None
      else hexGroup rest (S off) acc'
    end
  end.

(** What follows the loop of [parseIPv6]: the whole string must be used,
    and a short address is completed at the ellipsis. [ip] holds the [i]
    bytes parsed. *)
Definition finishIPv6 (s : string) (ip : list Z) (ellipsis : Z) : option (list Z) :=
  if negb (String.eqb s EmptyString) then None else
  let i := length ip in
  if (i <? 16)%nat then
    if ellipsis <? 0 then None
    else
      let e := Z.to_nat ellipsis in
      Some (firstn e ip ++ repeat 0 (16 - i) ++ skipn e ip)
  else if 0 <=? ellipsis then None
  else Some ip.

(** The loop of [parseIPv6], one group of hex digits per round; eight
    rounds fill the sixteen bytes. *)
Fixpoint parseIPv6Groups (rounds : nat) (s : string) (ip : list Z)
    (ellipsis : Z) : option (list Z) :=
  match rounds with
  | O => finishIPv6 s ip ellipsis
  | S rounds' =>
    let i := length ip in
    if (16 <=? i)%nat then finishIPv6 s ip ellipsis else
    match hexGroup s 0 0 with
    | None => None
    | Some (acc, off, rest) =>
      if (off =? 0)%nat then None else
      match rest with
      | String "." _ =>
        if (ellipsis <? 0) && negb (i =? 12)%nat then None
        else if (16 <? i + 4)%nat then None
        else match parseIPv4 s with
             | None => None
             | Some fields => finishIPv6 EmptyString (ip ++ fields) ellipsis
             end
      | _ =>
        let ip' := ip ++ [Z.shiftr acc 8; Z.land acc 255] in
        match rest with
        | EmptyString => finishIPv6 rest ip' ellipsis
        | String c s1 =>
          if negb (Ascii.eqb c ":") then None else
          match s1 with
          | EmptyString => None
          | String ":" s2 =>
            if 0 <=? ellipsis then None else
            let ellipsis' := Z.of_nat (length ip') in
            if String.eqb s2 EmptyString then finishIPv6 s2 ip' ellipsis'
            else parseIPv6Groups rounds' s2 ip' ellipsis'
          | _ => parseIPv6Groups rounds' s1 ip' ellipsis
          end
        end
      end
    end
  end.

(** [netip.parseIPv6]: the sixteen bytes and the zone. *)
Definition parseIPv6 (inp : string) : option (list Z * string) :=
  let '(s, zone, zoneOk) :=
    let i := strings.IndexByte inp "%" in
    if i =? -1 then (inp, EmptyString, true)
    else
      let z := sliceFrom inp (Z.to_nat (i + 1)) in
      (slice inp 0 (Z.to_nat i), z, negb (String.eqb z EmptyString)) in
  if negb zoneOk then None else
  match s with
  | String ":" (String ":" EmptyString) => Some (repeat 0 16, zone)
  | String ":" (String ":" s') =>
    option_map (fun ip => (ip, zone)) (parseIPv6Groups 8 s' [] 0)
  | _ => option_map (fun ip => (ip, zone)) (parseIPv6Groups 8 s [] (-1))
  end.

Definition v4InV6Prefix : list Z := [0; 0; 0; 0; 0; 0; 0; 0; 0; 0; 255; 255].

(** [netip.ParseAddr] followed by [As16]: the first of ['.'], [':'] and
    ['%'] in [s] selects the parser. *)
Fixpoint parseAddrFrom (whole s : string) : option (list Z * string) :=
  match s with
  | EmptyString => None
  | String c s' =>
    if Ascii.eqb c "." then
      option_map (fun f => (v4InV6Prefix ++ f, EmptyString)) (parseIPv4 whole)
    else if Ascii.eqb c ":" then parseIPv6 whole
    else if Ascii.eqb c "%" then None
    else parseAddrFrom whole s'
  end.

(** [net.ParseIP s]: the address in its 16-byte form, or nil when [s] is
    not the text of an IPv4 or IPv6 address (a zone is not accepted). *)
Definition ParseIP (s : string) : IP :=
  match parseAddrFrom s s with
  | Some (ip, zone) => if String.eqb zone EmptyString then ip else []
  | None => []
  end.

Definition IPv4len : nat := 4.
Definition IPv6len : nat := 16.

(** [ip.To4()]: the 4-byte form of an IPv4 address, or nil. *)
Definition To4 (ip : IP) : IP :=
  if (length ip =? IPv4len)%nat then ip
  else if (length ip =? IPv6len)%nat
          && forallb (Z.eqb 0) (firstn 10 ip)
          && (nth 10 ip 0 =? 255) && (nth 11 ip 0 =? 255)
  then skipn 12 ip
  else [].

Definition digit (d : Z) : ascii :=
  ascii_of_N (Z.to_N (if d <? 10 then 48 + d else 87 + d)).

Definition char (c : ascii) : string := String c EmptyString.

(** Decimal text of an octet. *)
Definition octet (n : Z) : string :=
  if n <? 10 then char (digit n)
  else if n <? 100 then char (digit (n / 10)) +:+ char (digit (n mod 10))
  else char (digit (n / 100)) +:+ char (digit (n / 10 mod 10)) +:+
       char (digit (n mod 10)).

Definition string4 (p : list Z) : string :=
  octet (nth 0 p 0) +:+ "." +:+ octet (nth 1 p 0) +:+ "." +:+
  octet (nth 2 p 0) +:+ "." +:+ octet (nth 3 p 0).

(** [appendHex]: a 16-bit group in lower-case hex without leading zeros. *)
Definition appendHex (x : Z) : string :=
  (if 4096 <=? x then char (digit (Z.shiftr x 12)) else EmptyString) +:+
  (if 256 <=? x then char (digit (Z.land (Z.shiftr x 8) 15)) else EmptyString) +:+
  (if 16 <=? x then char (digit (Z.land (Z.shiftr x 4) 15)) else EmptyString) +:+
  char (digit (Z.land x 15)).

Fixpoint hexString (b : list Z) : string :=
  match b with
  | [] => EmptyString
  | x :: b' =>
    String (digit (Z.shiftr x 4)) (String (digit (Z.land x 15)) (hexString b'))
  end.

(** The eight 16-bit groups of a 16-byte address. *)
Fixpoint v6u16 (ip : list Z) : list Z :=
  match ip with
  | hi :: lo :: ip' => Z.lor (Z.shiftl hi 8) lo :: v6u16 ip'
  | _ => []
  end.

Fixpoint zeroRun (gs : list Z) : nat :=
  match gs with
  | g :: gs' => if g =? 0 then S (zeroRun gs') else 0%nat
  | [] => 0%nat
  end.

(** The first loop of [string6]: the longest run of at least two zero
    groups, as [(zeroStart, zeroEnd)]; [gs] are the groups from index [i]. *)
Fixpoint longestZeroRun (gs : list Z) (i zeroStart zeroEnd : nat) : nat * nat :=
  match gs with
  | [] => (zeroStart, zeroEnd)
  | _ :: gs' =>
    let l := zeroRun gs in
    if (2 <=? l)%nat && (zeroEnd - zeroStart <? l)%nat
    then longestZeroRun gs' (S i) i (i + l)%nat
    else longestZeroRun gs' (S i) zeroStart zeroEnd
  end.

(** The second loop of [string6]. *)
Fixpoint printGroups (fuel : nat) (gs : list Z) (i zeroStart zeroEnd : nat)
    : string :=
  match fuel with
  | O => EmptyString
  | S fuel' =>
    if (8 <=? i)%nat then EmptyString
    else if (i =? zeroStart)%nat then
      "::" +:+
      (if (8 <=? zeroEnd)%nat then EmptyString
       else appendHex (nth zeroEnd gs 0) +:+
            printGroups fuel' gs (S zeroEnd) zeroStart zeroEnd)
    else
      (if (0 <? i)%nat then ":" else EmptyString) +:+
      appendHex (nth i gs 0) +:+ printGroups fuel' gs (S i) zeroStart zeroEnd
  end.

Definition string6 (ip : list Z) : string :=
  let gs := v6u16 ip in
  let '(zeroStart, zeroEnd) := longestZeroRun gs 0 255 255 in
  printGroups 8 gs 0 zeroStart zeroEnd.

(** [ip.String()]: ["<nil>"] for the nil address, dotted decimal for an
    IPv4 address, the compressed hex form for an IPv6 address. *)
Definition String_ (ip : IP) : string :=
  if (length ip =? 0)%nat then "<nil>"
  else if negb (length ip =? IPv4len)%nat && negb (length ip =? IPv6len)%nat
  then "?" +:+ hexString ip
  else if (length (To4 ip) =? IPv4len)%nat then string4 (To4 ip)
  else string6 ip.

End net.

(** ** Package time *)
Module time.

(** A [Time] is an instant, in nanoseconds on the time line; a [Duration]
    is an int64 count of nanoseconds. *)
Definition Time : Type := Z.
Definition Duration : Type := Z.

Definition Second : Duration := 1000000000.
Definition Minute : Duration := 60 * Second.

Definition minDuration : Duration := - 2 ^ 63.
Definition maxDuration : Duration := 2 ^ 63 - 1.

(** [t.Sub(u)]: the duration [t - u], or the least or greatest duration
    when [t - u] does not fit. *)
Definition Sub (t u : Time) : Duration :=
  let d := t - u in
  if d <? minDuration then minDuration
  else if maxDuration <? d then maxDuration
  else d.

(** [time.Since(t)] is [time.Now().Sub(t)]; [now] is the clock reading. *)
Definition Since (now t : Time) : Duration := Sub now t.

End time.

(** ** Package net/http: what the handler uses of it *)
Module http.

Definition StatusFound : Z := 302.
Definition StatusBadRequest : Z := 400.
Definition StatusInternalServerError : Z := 500.

(** [h.Get(key)] for a key in canonical form: the first value stored under
    the key, or the empty string. *)
Definition Header_Get (h : gmap string (list string)) (key : string) : string :=
  match h !! key with
  | Some (v :: _) => v
  | _ => EmptyString
  end.

(** The part of [*http.Request] that decides a run of [Create]: the
    result of [r.ParseForm()] and the form values it leaves in [r.Form],
    the headers and the remote address.  The handler also hands
    [r.Context()] to the repository and [r] itself to [http.Redirect];
    neither is recorded here, nor in the calls of the log. *)
Record Request := {
  ParseForm : option string;
  Form : gmap string (list string);
  Header : gmap string (list string);
  RemoteAddr : string
}.

End http.

(** ** Package internal/guest *)
Module guest.

(** Modelled from the spec: the Guest Entry of package internal/guest,
    which is not among the sources at hand.  The entry has a message text,
    a client identity and a creation timestamp; the handler reads
    [CreatedAt] of the entry that [LastMessage] returns. *)
Record Guest := {
  Message : string;
  IP : net.IP;
  CreatedAt : time.Time
}.

End guest.

(** ** The handler *)

(** A Go [error] value is modelled by its text; a nil error is [None]. *)
Definition error : Type := string.

Record errorPage := { ErrorMessage : string }.

(** The collaborators of one run of [Create], as the handler sees them:
    the clock read by [time.Since], the repository's [LastMessage] and
    [Insert], the profanity detector [goaway.IsProfane], the matcher
    [linkRegex] (the relaxed URL pattern of xurls) and what decides the
    result of [guest.NewGuest]. *)
Record World := {
  Now : time.Time;
  repo_LastMessage : net.IP -> guest.Guest * option error;
  goaway_IsProfane : string -> bool;
  linkRegex_MatchString : string -> bool;
  NewGuest_err : string -> net.IP -> option error;
  NewGuest_now : time.Time;
  repo_Insert : guest.Guest -> option error
}.

(** Modelled from the spec: [guest.NewGuest], of package internal/guest,
    which is not among the sources at hand.  Unless the construction fails
    it yields an entry with the given text and identity, and a creation
    timestamp assigned at construction time. *)
Definition NewGuest (w : World) (message : string) (ip : net.IP)
    : guest.Guest * option error :=
  match NewGuest_err w message ip with
  | Some e =>
    ({| guest.Message := EmptyString; guest.IP := []; guest.CreatedAt := 0 |},
     Some e)
  | None =>
    ({| guest.Message := message; guest.IP := ip;
        guest.CreatedAt := NewGuest_now w |}, None)
  end.

(** The calls of [Create] that the log records: those on a collaborator
    (logger, response writer, template, repository, guest constructor,
    sleep, redirect) and those that are passed the message text. *)
Inductive Call :=
| LoggerError (msg : string) (err : error)
| WriteHeader (statusCode : Z)
| ExecuteTemplate (name : string) (data : errorPage)
| TrimSpaceCall (s : string)
| LastMessageCall (ip : net.IP)
| SleepCall (d : time.Duration)
| ReplaceAllStringCall (src repl : string)
| IsProfaneCall (s : string)
| MatchStringCall (s : string)
| NewGuestCall (message : string) (ip : net.IP)
| InsertCall (g : guest.Guest)
| RedirectCall (url : string) (code : Z).

(** How a piece of the handler's body ends: it goes on with a value, it
    returns from the handler, or it panics. *)
Inductive Flow (A : Type) :=
| Next (a : A)
| Return
| Panic (why : string).
Arguments Next {A} a.
Arguments Return {A}.
Arguments Panic {A} why.

(** A piece of the handler's body: the calls it logs and how it ends. *)
Definition Handler (A : Type) : Type := list Call * Flow A.

Global Instance Handler_ret : MRet Handler := fun A a => ([], Next a).

Global Instance Handler_bind : MBind Handler := fun A B k m =>
  match m with
  | (log, Next a) => let '(log', f) := k a in (log ++ log', f)
  | (log, Return) => (log, Return)
  | (log, Panic why) => (log, Panic why)
  end.

Definition call (c : Call) : Handler unit := ([c], Next tt).
Definition return_ {A} : Handler A := ([], Return).
Definition panic {A} (why : string) : Handler A := ([], Panic why).

(** Go's [l[i]] and [l[:j]]: out of range they panic. *)
Definition index {A} (l : list A) (i : Z) : Handler A :=
  if i <? 0 then panic "index out of range" else
  match l !! Z.to_nat i with
  | Some x => mret x
  | None => panic "index out of range"
  end.

Definition sliceTo {A} (l : list A) (j : Z) : Handler (list A) :=
  if (j <? 0) || (Z.of_nat (length l) <? j) then panic "slice bounds out of range"
  else mret (firstn (Z.to_nat j) l).

Definition len {A} (l : list A) : Z := Z.of_nat (length l).

(** [if b { body }]. *)
Definition when (b : bool) (body : Handler unit) : Handler unit :=
  if b then body else mret tt.

Section Create.

Variable w : World.

(** The logged calls, each with its result. *)
Definition TrimSpace (s : string) : Handler string :=
  call (TrimSpaceCall s);; mret (strings.TrimSpace s).

Definition LastMessage (ip : net.IP) : Handler (guest.Guest * option error) :=
  call (LastMessageCall ip);; mret (repo_LastMessage w ip).

Definition ReplaceAllString (src repl : string) : Handler string :=
  call (ReplaceAllStringCall src repl);;
  mret (newlineRegex_ReplaceAllString src repl).

Definition IsProfane (s : string) : Handler bool :=
  call (IsProfaneCall s);; mret (goaway_IsProfane w s).

Definition MatchString (s : string) : Handler bool :=
  call (MatchStringCall s);; mret (linkRegex_MatchString w s).

Definition guest_NewGuest (message : string) (ip : net.IP)
    : Handler (guest.Guest * option error) :=
  call (NewGuestCall message ip);; mret (NewGuest w message ip).

Definition Insert (g : guest.Guest) : Handler (option error) :=
  call (InsertCall g);; mret (repo_Insert w g).

(** [Create], statement by statement. *)
Definition Create (r : http.Request) : Handler unit :=
  match http.ParseForm r with
  | Some err =>
    call (LoggerError "failed to parse form" err);;
    call (WriteHeader http.StatusInternalServerError);;
    return_
  | None => mret tt
  end;;
  msg ← match http.Form r !! "message" with
        | Some msg => mret msg
        | None => call (WriteHeader http.StatusBadRequest);; return_
        end;
  let message := strings.Join msg " " in
  trimmed ← TrimSpace message;
  when (String.eqb trimmed "")
    (call (WriteHeader http.StatusBadRequest);;
     call (ExecuteTemplate "error.html"
             {| ErrorMessage := "Blank messages don't count" |});;
     return_);;
  let addr := http.Header_Get (http.Header r) "X-Forwarded-For" in
  let xffSplits := strings.Split addr "," in
  xffStr ← (if 0 <? len xffSplits then index xffSplits (len xffSplits - 1)
            else mret EmptyString);
  let splits := strings.Split (http.RemoteAddr r) ":" in
  front ← sliceTo splits (len splits - 1);
  let ipStr := strings.Trim (strings.Join front ":") "[]" in
  let ip := net.ParseIP ipStr in
  let ip := if negb (String.eqb xffStr "") then net.ParseIP xffStr else ip in
  '(last_, err) ← LastMessage ip;
  match err with
  | None =>
    let since := time.Since (Now w) (guest.CreatedAt last_) in
    when (since <? time.Minute) (call (SleepCall time.Minute);; return_)
  | Some _ => mret tt
  end;;
  message ← ReplaceAllString message " ";
  profane ← IsProfane message;
  when profane
    (call (WriteHeader http.StatusBadRequest);;
     call (ExecuteTemplate "error.html"
             {| ErrorMessage :=
                  "Please don't use profanity. Your IP has been tracked "
                  +:+ net.String_ ip |});;
     return_);;
  link ← MatchString message;
  when link
    (call (WriteHeader http.StatusBadRequest);;
     call (ExecuteTemplate "error.html"
             {| ErrorMessage := "No links allowed" |});;
     return_);;
  '(guest, err) ← guest_NewGuest message ip;
  match err with
  | Some err =>
    call (LoggerError "failed to create guest" err);;
    call (WriteHeader http.StatusInternalServerError);;
    return_
  | None => mret tt
  end;;
  err ← Insert guest;
  match err with
  | Some err =>
    call (LoggerError "failed to insert guest" err);;
    call (WriteHeader http.StatusInternalServerError);;
    return_
  | None => mret tt
  end;;
  call (RedirectCall "/" http.StatusFound).

End Create.

(** ** Reading a run of the handler *)

Definition log {A} (h : Handler A) : list Call := fst h.
Definition flow {A} (h : Handler A) : Flow A := snd h.

(** The identity that [Create] resolves (the value of [ip] when
    [LastMessage] is called), as a function of the request. *)
Definition clientIP (r : http.Request) : net.IP :=
  let addr := http.Header_Get (http.Header r) "X-Forwarded-For" in
  let xffStr := List.last (strings.Split addr ",") EmptyString in
  let splits := strings.Split (http.RemoteAddr r) ":" in
  let ipStr := strings.Trim (strings.Join (removelast splits) ":") "[]" in
  if negb (String.eqb xffStr "") then net.ParseIP xffStr else net.ParseIP ipStr.

(** The message text of a form: the values of the field joined by a space,
    and that text after the replacement of the newlines. *)
Abbreviation joined msg := (strings.Join msg " ").
Abbreviation normalized msg :=
  (newlineRegex_ReplaceAllString (strings.Join msg " ") " ").

(** The six ASCII white-space bytes: tab, line feed, vertical tab, form
    feed, carriage return and space. *)
Definition asciiSpace : string :=
  String (ascii_of_nat 9) (String LF (String (ascii_of_nat 11)
    (String (ascii_of_nat 12) (String CR " ")))).

(** The test of the rate limiter on the result of the lookup. *)
Definition rateLimited (w : World) (ip : net.IP) : bool :=
  match repo_LastMessage w ip with
  | (last_, None) => time.Since (Now w) (guest.CreatedAt last_) <? time.Minute
  | (_, Some _) => false
  end.

Definition blankPage : errorPage :=
  {| ErrorMessage := "Blank messages don't count" |}.
Definition profanityPage (ip : net.IP) : errorPage :=
  {| ErrorMessage :=
       "Please don't use profanity. Your IP has been tracked " +:+ net.String_ ip |}.
Definition linkPage : errorPage := {| ErrorMessage := "No links allowed" |}.

(** The runs of [Create], path by path: [Create_paths] below shows that
    this is what [Create] computes.  [nonBlankPaths] are the runs of a
    submission whose message passed the blank check. *)
Definition nonBlankPaths (w : World) (r : http.Request) (msg : list string)
    : Handler unit :=
  let ip := clientIP r in
  let checked := [TrimSpaceCall (joined msg); LastMessageCall ip] in
  if rateLimited w ip then (checked ++ [SleepCall time.Minute], Return) else
  let text := normalized msg in
  let checked :=
    checked ++ [ReplaceAllStringCall (joined msg) " "; IsProfaneCall text] in
  if goaway_IsProfane w text then
    (checked ++ [WriteHeader 400; ExecuteTemplate "error.html" (profanityPage ip)],
     Return)
  else
  let checked := checked ++ [MatchStringCall text] in
  if linkRegex_MatchString w text then
    (checked ++ [WriteHeader 400; ExecuteTemplate "error.html" linkPage], Return)
  else
  let checked := checked ++ [NewGuestCall text ip] in
  match NewGuest w text ip with
  | (_, Some err) =>
    (checked ++ [LoggerError "failed to create guest" err; WriteHeader 500], Return)
  | (g, None) =>
    let checked := checked ++ [InsertCall g] in
    match repo_Insert w g with
    | Some err =>
      (checked ++ [LoggerError "failed to insert guest" err; WriteHeader 500],
       Return)
    | None => (checked ++ [RedirectCall "/" 302], Next tt)
    end
  end.

Definition CreatePaths (w : World) (r : http.Request) : Handler unit :=
  match http.ParseForm r with
  | Some err =>
    ([LoggerError "failed to parse form" err; WriteHeader 500], Return)
  | None =>
    match http.Form r !! "message" with
    | None => ([WriteHeader 400], Return)
    | Some msg =>
      if String.eqb (strings.TrimSpace (joined msg)) "" then
        ([TrimSpaceCall (joined msg); WriteHeader 400;
          ExecuteTemplate "error.html" blankPage], Return)
      else nonBlankPaths w r msg
    end
  end.

(** What a log holds for the response, the clock and the repository. *)
Definition isResponse (c : Call) : bool :=
  match c with
  | WriteHeader _ | ExecuteTemplate _ _ | RedirectCall _ _ => true
  | _ => false
  end.

Definition response (l : list Call) : list Call := List.filter isResponse l.

Definition slept (l : list Call) : list time.Duration :=
  flat_map (fun c => match c with SleepCall d => [d] | _ => [] end) l.

Definition lookups (l : list Call) : list net.IP :=
  flat_map (fun c => match c with LastMessageCall ip => [ip] | _ => [] end) l.

Definition constructed (l : list Call) : list (string * net.IP) :=
  flat_map (fun c => match c with NewGuestCall m ip => [(m, ip)] | _ => [] end) l.

Definition inserted (l : list Call) : list guest.Guest :=
  flat_map (fun c => match c with InsertCall g => [g] | _ => [] end) l.

(** The calls that examine the submission, in the order of the log. *)
Definition isCheck (c : Call) : bool :=
  match c with
  | TrimSpaceCall _ | LastMessageCall _ | ReplaceAllStringCall _ _
  | IsProfaneCall _ | MatchStringCall _ => true
  | _ => false
  end.

Definition checks (l : list Call) : list Call := List.filter isCheck l.

(** ** Sample requests and collaborators

    Concrete inputs on which the statements below are evaluated.  The two
    detectors stand in for the libraries on the sample texts only: a
    one-word lexicon, and a test for a scheme prefix. *)
Module Sample.

Definition post (message : string) (xff : option string) (remote : string)
    : http.Request :=
  {| http.ParseForm := None;
     http.Form := {[ "message" := [message] ]};
     http.Header := match xff with
                    | Some v => {[ "X-Forwarded-For" := [v] ]}
                    | None => ∅
                    end;
     http.RemoteAddr := remote |}.

Definition noGuest : guest.Guest :=
  {| guest.Message := EmptyString; guest.IP := []; guest.CreatedAt := 0 |}.

(** A repository without an entry for the identity. *)
Definition noRecord (ip : net.IP) : guest.Guest * option error :=
  (noGuest, Some "no rows in result set").

(** A repository whose last entry for the identity was created at [t]. *)
Definition recordAt (t : time.Time) (ip : net.IP) : guest.Guest * option error :=
  ({| guest.Message := "first"; guest.IP := ip; guest.CreatedAt := t |}, None).

Definition isProfane (s : string) : bool := strings.Contains s "shit".
Definition hasLink (s : string) : bool := strings.Contains s "http://".

Definition world (now : time.Time)
    (lookup : net.IP -> guest.Guest * option error) : World :=
  {| Now := now;
     repo_LastMessage := lookup;
     goaway_IsProfane := isProfane;
     linkRegex_MatchString := hasLink;
     NewGuest_err := fun _ _ => None;
     NewGuest_now := now;
     repo_Insert := fun _ => None |}.

Definition now : time.Time := 100 * time.Second.

(** An entry ten seconds old for every identity; no entry at all. *)
Definition throttled : World := world now (recordAt (90 * time.Second)).
Definition fresh : World := world now noRecord.

(** An entry two minutes old for every identity. *)
Definition settled : World := world now (recordAt (-20 * time.Second)).

Definition peer : string := "203.0.113.9:40000".

Definition blankPost : http.Request := post "   " None peer.
Definition helloPost : http.Request := post "Hello world" None peer.
Definition linkPost : http.Request := post "visit http://evil.example now" None peer.
Definition rudeLinkPost : http.Request := post "shit http://evil.example" None peer.
Definition rudePost : http.Request := post "shit" (Some "unknown") peer.
Definition twoHopPost : http.Request :=
  post "Hello world" (Some "1.2.3.4, 5.6.7.8") peer.
Definition unknownPost : http.Request := post "Hello world" (Some "unknown") peer.
Definition twoLinePost : http.Request :=
  post ("Hello" +:+ String CR (String LF "world")) None peer.

End Sample.


(** ** The listing handler [Home] *)
Module listing.

Record indexPage := { Guests : list guest.Guest; Total : Z }.

(** The repository as [Home] reads it: the results of [FindAll], by its
    limit, and of [Count]. *)
Record Reads := {
  repo_FindAll : Z -> list guest.Guest * option error;
  repo_Count : Z * option error
}.

(** The calls of [Home] on its collaborators. *)
Inductive Call :=
| FindAllCall (limit : Z)
| CountCall
| LoggerError (msg : string) (err : error)
| WriteHeader (statusCode : Z)
| HeaderAdd (key value : string)
| ExecuteTemplate (name : string) (data : indexPage).

(** A piece of the body of [Home]: the calls it logs and how it ends. *)
Definition Handler (A : Type) : Type := list Call * Flow A.

#[local] Instance Handler_ret : MRet Handler := fun A a => ([], Next a).

#[local] Instance Handler_bind : MBind Handler := fun A B k m =>
  match m with
  | (log, Next a) => let '(log', f) := k a in (log ++ log', f)
  | (log, Return) => (log, Return)
  | (log, Panic why) => (log, Panic why)
  end.

Definition call (c : Call) : Handler unit := ([c], Next tt).
Definition return_ {A} : Handler A := ([], Return).

Section Home.

Variable w : Reads.

Definition FindAll (limit : Z) : Handler (list guest.Guest * option error) :=
  call (FindAllCall limit);; mret (repo_FindAll w limit).

Definition Count : Handler (Z * option error) :=
  call CountCall;; mret (repo_Count w).

(** [Home], statement by statement. *)
Definition Home : Handler unit :=
  '(guests, err) ← FindAll 200;
  match err with
  | Some err =>
    call (LoggerError "failed to find guests" err);;
    call (WriteHeader http.StatusInternalServerError);;
    return_
  | None => mret tt
  end;;
  '(count, err) ← Count;
  match err with
  | Some err =>
    call (LoggerError "failed to get count" err);;
    call (WriteHeader http.StatusInternalServerError);;
    return_
  | None => mret tt
  end;;
  call (HeaderAdd "Content-Type" "text/html");;
  call (ExecuteTemplate "index.html" {| Guests := guests; Total := count |}).

End Home.

Definition log {A} (h : Handler A) : list Call := fst h.

(** What a log of [Home] holds. *)
Definition rendered (l : list Call) : list (string * indexPage) :=
  flat_map (fun c => match c with ExecuteTemplate n d => [(n, d)] | _ => [] end) l.

Definition statuses (l : list Call) : list Z :=
  flat_map (fun c => match c with WriteHeader c => [c] | _ => [] end) l.

Definition headers (l : list Call) : list (string * string) :=
  flat_map (fun c => match c with HeaderAdd k v => [(k, v)] | _ => [] end) l.

Definition failures (l : list Call) : list (string * error) :=
  flat_map (fun c => match c with LoggerError m e => [(m, e)] | _ => [] end) l.

Definition counted (l : list Call) : nat :=
  length (List.filter (fun c => match c with CountCall => true | _ => false end) l).

End listing.

(** ** Texts that hold a link

    [linkRegex] is the relaxed pattern of the library xurls, compiled from
    the library's tables of schemes and of top-level domains; the handler
    only calls [MatchString] on it, the field [linkRegex_MatchString] of
    [World].  What follows says, of a text and with the two tables as
    parameters, that it holds a scheme-prefixed URL or a bare domain
    somewhere, and what it is for a pattern to catch every such text, as
    the relaxed pattern is documented to. *)
Module links.

Definition isAlnum (c : ascii) : bool :=
  let b := byteZ c in
  ((48 <=? b) && (b <=? 57)) || ((65 <=? b) && (b <=? 90)) ||
  ((97 <=? b) && (b <=? 122)).

(** The bytes of the class [\w], between which [\b] finds no boundary. *)
Definition isWord (c : ascii) : bool := isAlnum c || Ascii.eqb c "_".

Fixpoint allAlnum (s : string) : bool :=
  match s with
  | EmptyString => true
  | String c s' => isAlnum c && allAlnum s'
  end.

(** A name: one or more ASCII letters and digits. *)
Definition name (s : string) : Prop := s <> EmptyString /\ allAlnum s = true.

(** A scheme of the table, "://" and the start of a host: "http://evil". *)
Definition schemeURL (schemes : list string) (t : string) : Prop :=
  exists scheme host,
    In scheme schemes /\ name scheme /\ name host /\
    t = scheme +:+ "://" +:+ host.

(** A label, a dot and a top-level domain of the table: "example.com". *)
Definition bareDomain (tlds : list string) (t : string) : Prop :=
  exists label tld,
    In tld tlds /\ name tld /\ name label /\ t = label +:+ "." +:+ tld.

(** The text ends, or goes on with a byte that is not of a word. *)
Definition wordBreak (post : string) : Prop :=
  match post with
  | EmptyString => True
  | String c _ => isWord c = false
  end.

(** [s] holds, anywhere, a scheme-prefixed URL or a bare domain whose
    top-level domain ends at a word boundary. *)
Definition containsLink (schemes tlds : list string) (s : string) : Prop :=
  exists pre t post,
    s = pre +:+ t +:+ post /\
    (schemeURL schemes t \/ (bareDomain tlds t /\ wordBreak post)).

(** The pattern [matches] catches every text that holds a link. *)
Definition catches (schemes tlds : list string) (matches : string -> bool)
    : Prop :=
  forall s, containsLink schemes tlds s -> matches s = true.

End links.

(** ** Further sample requests and collaborators *)
Module Cases.

(** A request whose form did not parse, though a message was read. *)
Definition brokenForm : http.Request :=
  {| http.ParseForm := Some "invalid URL escape";
     http.Form := {[ "message" := ["Hello world"] ]};
     http.Header := ∅;
     http.RemoteAddr := Sample.peer |}.

(** A request with another field, and none called [message]. *)
Definition noField : http.Request :=
  {| http.ParseForm := None;
     http.Form := {[ "name" := ["Ada"] ]};
     http.Header := ∅;
     http.RemoteAddr := Sample.peer |}.

(** A message field with three values, all of white space. *)
Definition blankValues : http.Request :=
  {| http.ParseForm := None;
     http.Form := {[ "message" := ["  "; EmptyString; String LF EmptyString] ]};
     http.Header := ∅;
     http.RemoteAddr := Sample.peer |}.

(** A connection over a Unix socket: the remote address has no port. *)
Definition socketPost : http.Request := Sample.post "Hello world" None "@".

Definition bracketedPost : http.Request :=
  Sample.post "Hello world" None "[2001:db8::1]:443".

Definition oneHopPost : http.Request :=
  Sample.post "Hello world" (Some "1.2.3.4,5.6.7.8") Sample.peer.

Definition entry : guest.Guest :=
  {| guest.Message := "first"; guest.IP := [];
     guest.CreatedAt := 90 * time.Second |}.

Definition page : listing.Reads :=
  {| listing.repo_FindAll := fun _ => ([entry], None);
     listing.repo_Count := (7, None) |}.

Definition findFails : listing.Reads :=
  {| listing.repo_FindAll := fun _ => ([], Some "connection refused");
     listing.repo_Count := (7, None) |}.

Definition countFails : listing.Reads :=
  {| listing.repo_FindAll := fun _ => ([entry], None);
     listing.repo_Count := (0, Some "connection refused") |}.

(** A pattern that takes every text with "://" or a dot for a link, and
    the collaborators of [Sample.fresh] with that pattern. *)
Definition anyLink (s : string) : bool :=
  strings.Contains s "://" || strings.Contains s ".".

Definition permissive : World :=
  {| Now := Sample.now;
     repo_LastMessage := Sample.noRecord;
     goaway_IsProfane := Sample.isProfane;
     linkRegex_MatchString := anyLink;
     NewGuest_err := fun _ _ => None;
     NewGuest_now := Sample.now;
     repo_Insert := fun _ => None |}.

Definition schemes : list string := ["http"; "https"].
Definition tlds : list string := ["com"; "org"].

Definition domainPost : http.Request :=
  Sample.post "see example.com" None Sample.peer.

End Cases.

(** * Properties *)

(** ** The library models on sample values *)

Example TrimSpace_ascii : strings.TrimSpace "  Hello world  " = "Hello world".
Proof. vm_compute. reflexivity. Qed.

Example TrimSpace_blank :
  strings.TrimSpace (" " +:+ String CR (String LF " ")) = EmptyString.
Proof. vm_compute. reflexivity. Qed.

(** U+00A0 (bytes C2 A0) and U+2003 (bytes E2 80 83) are white space. *)
Example TrimSpace_unicode :
  strings.TrimSpace
    (String (ascii_of_nat 194) (String (ascii_of_nat 160)
       ("a" +:+ String (ascii_of_nat 226) (String (ascii_of_nat 128)
                  (String (ascii_of_nat 131) EmptyString))))) = "a".
Proof. vm_compute. reflexivity. Qed.

Example Split_forwarded :
  strings.Split "1.2.3.4, 5.6.7.8" "," = ["1.2.3.4"; " 5.6.7.8"].
Proof. reflexivity. Qed.

Example Split_empty : strings.Split "" "," = [""].
Proof. reflexivity. Qed.

Example Split_remote : strings.Split "[::1]:54321" ":" = ["["; ""; "1]"; "54321"].
Proof. reflexivity. Qed.

Example ParseIP_v4 :
  net.ParseIP "5.6.7.8" = [0; 0; 0; 0; 0; 0; 0; 0; 0; 0; 255; 255; 5; 6; 7; 8].
Proof. vm_compute. reflexivity. Qed.

Example ParseIP_leading_space : net.ParseIP " 5.6.7.8" = [].
Proof. vm_compute. reflexivity. Qed.

Example ParseIP_v6 :
  map (fun s => net.String_ (net.ParseIP s))
    ["::1"; "2001:DB8::ff00:42:8329"; "1:0:0:2:0:0:0:3"; "::ffff:1.2.3.4";
     "fe80::1%eth0"; "1.2.3"; "01.2.3.4"; "12345::"] =
  ["::1"; "2001:db8::ff00:42:8329"; "1:0:0:2::3"; "1.2.3.4";
   "<nil>"; "<nil>"; "<nil>"; "<nil>"].
Proof. vm_compute. reflexivity. Qed.

(** The connection address "[::1]:54321" without a forwarded-address
    header gives the identity ::1. *)
Example clientIP_bracketed_remote :
  net.String_ (clientIP (Sample.post "hi" None "[::1]:54321")) = "::1".
Proof. vm_compute. reflexivity. Qed.

Example normalize_sample :
  newlineRegex_ReplaceAllString
    ("a" +:+ String CR (String LF ("b" +:+ String LF ("c" +:+ String CR "d")))) " "
  = "a b c" +:+ String CR "d".
Proof. vm_compute. reflexivity. Qed.

Example Create_hello :
  Create Sample.fresh Sample.helloPost =
  ([TrimSpaceCall "Hello world";
    LastMessageCall [0; 0; 0; 0; 0; 0; 0; 0; 0; 0; 255; 255; 203; 0; 113; 9];
    ReplaceAllStringCall "Hello world" " ";
    IsProfaneCall "Hello world"; MatchStringCall "Hello world";
    NewGuestCall "Hello world"
      [0; 0; 0; 0; 0; 0; 0; 0; 0; 0; 255; 255; 203; 0; 113; 9];
    InsertCall
      {| guest.Message := "Hello world";
         guest.IP := [0; 0; 0; 0; 0; 0; 0; 0; 0; 0; 255; 255; 203; 0; 113; 9];
         guest.CreatedAt := 100000000000 |};
    RedirectCall "/" 302], Next tt).
Proof. vm_compute. reflexivity. Qed.

(** ** The laws of the handler monad *)

Lemma Handler_bind_ret_l {A B} (a : A) (k : A -> Handler B) : mret a ≫= k = k a.
Proof.
  unfold mbind, mret, Handler_bind, Handler_ret. destruct (k a). reflexivity.
Qed.

Lemma Handler_bind_ret_r {A} (m : Handler A) : m ≫= mret = m.
Proof.
  destruct m as [l [a| |why]]; unfold mbind, mret, Handler_bind, Handler_ret;
    [rewrite app_nil_r|..]; reflexivity.
Qed.

Lemma Handler_bind_assoc {A B C} (m : Handler A)
    (k : A -> Handler B) (k' : B -> Handler C) :
  (m ≫= k) ≫= k' = m ≫= (fun a => k a ≫= k').
Proof.
  destruct m as [l [a| |why]]; unfold mbind, Handler_bind; try reflexivity.
  destruct (k a) as [l1 [b| |why]]; try reflexivity.
  destruct (k' b) as [l2 f]. rewrite app_assoc. reflexivity.
Qed.

(** ** Strings of ASCII white space are blank *)

Lemma sliceFrom_get (s : string) (i : nat) :
  (i < String.length s)%nat ->
  exists c rest, String.get i s = Some c /\ sliceFrom s i = String c rest.
Proof.
  unfold sliceFrom. revert i. induction s as [|d s IH]; intros i Hi.
  - simpl in Hi. lia.
  - destruct i as [|i].
    + exists d. eexists. split; reflexivity.
    + simpl in Hi. destruct (IH i) as (c & rest & Hget & Hsub); [lia|].
      exists c, rest. split; [exact Hget|]. exact Hsub.
Qed.

Lemma onlyBytes_get (cutset s : string) (i : nat) (c : ascii) :
  strings.onlyBytes cutset s = true -> String.get i s = Some c ->
  strings.inSet cutset c = true.
Proof.
  revert i. induction s as [|d s IH]; intros i Hall Hget; [discriminate|].
  simpl in Hall. apply andb_prop in Hall as [Hd Hs].
  destruct i as [|i]; [injection Hget as <-; exact Hd|].
  exact (IH i Hs Hget).
Qed.

Lemma asciiSpace_decode (c : ascii) (rest : string) :
  strings.inSet asciiSpace c = true ->
  exists r, utf8.DecodeRuneInString (String c rest) = (r, 1%nat) /\
            unicode.IsSpace r = true.
Proof.
  unfold asciiSpace. cbn [strings.inSet]. intros H.
  repeat (apply orb_prop in H as [H|H];
          [apply Ascii.eqb_eq in H; subst c; eexists; split; reflexivity|]).
  discriminate H.
Qed.

Lemma indexFunc_asciiSpace (s : string) (fuel i : nat) :
  strings.onlyBytes asciiSpace s = true ->
  strings.indexFuncFrom unicode.IsSpace false fuel s i = -1.
Proof.
  intros Hall. revert i. induction fuel as [|fuel IH]; intros i; [reflexivity|].
  cbn [strings.indexFuncFrom].
  destruct (Nat.leb_spec (String.length s) i) as [|Hi]; [reflexivity|].
  destruct (sliceFrom_get s i Hi) as (c & rest & Hget & ->).
  destruct (asciiSpace_decode c rest (onlyBytes_get _ _ _ _ Hall Hget))
    as (r & -> & ->).
  apply IH.
Qed.

Lemma TrimSpace_asciiSpace (s : string) :
  strings.onlyBytes asciiSpace s = true -> strings.TrimSpace s = EmptyString.
Proof.
  intros Hall. unfold strings.TrimSpace, strings.TrimFunc, strings.TrimLeftFunc,
    strings.indexFunc.
  rewrite (indexFunc_asciiSpace s _ _ Hall). reflexivity.
Qed.

(** ** Indexing the pieces of a split *)

Lemma Split_nonempty (s : string) (sep : ascii) : strings.Split s sep <> [].
Proof.
  induction s as [|c s IH]; simpl; [discriminate|].
  destruct (Ascii.eqb c sep); [discriminate|].
  destruct (strings.Split s sep); discriminate.
Qed.

Lemma lookup_pred_length {A} (l : list A) (d : A) :
  l <> [] -> l !! Nat.pred (length l) = Some (List.last l d).
Proof.
  induction l as [|a [|b l'] IH]; intros Hl.
  - congruence.
  - reflexivity.
  - change (List.last (a :: b :: l') d) with (List.last (b :: l') d).
    rewrite <- IH by discriminate. reflexivity.
Qed.

Lemma index_last {A} (l : list A) (d : A) :
  l <> [] -> index l (len l - 1) = mret (List.last l d).
Proof.
  intros Hl. unfold index, len.
  destruct (Z.ltb_spec (Z.of_nat (length l) - 1) 0) as [H|H].
  - destruct l; [congruence|]. simpl length in H. lia.
  - replace (Z.to_nat (Z.of_nat (length l) - 1)) with (Nat.pred (length l)) by lia.
    rewrite (lookup_pred_length l d Hl). reflexivity.
Qed.

Lemma sliceTo_removelast {A} (l : list A) :
  l <> [] -> sliceTo l (len l - 1) = mret (removelast l).
Proof.
  intros Hl. unfold sliceTo, len.
  assert (0 < length l)%nat by (destruct l; [congruence|simpl; lia]).
  destruct (Z.ltb_spec (Z.of_nat (length l) - 1) 0); [lia|].
  destruct (Z.ltb_spec (Z.of_nat (length l)) (Z.of_nat (length l) - 1)); [lia|].
  simpl. f_equal. f_equal.
  replace (Z.to_nat (Z.of_nat (length l) - 1)) with (Nat.pred (length l)) by lia.
  symmetry. apply removelast_firstn_len.
Qed.

Lemma len_Split_pos (s : string) (sep : ascii) :
  (0 <? len (strings.Split s sep)) = true.
Proof.
  pose proof (Split_nonempty s sep) as H. unfold len.
  destruct (strings.Split s sep); [congruence|]. reflexivity.
Qed.

Lemma Create_paths (w : World) (r : http.Request) : Create w r = CreatePaths w r.
Proof.
  unfold Create, CreatePaths, nonBlankPaths, clientIP.
  destruct (http.ParseForm r) as [err|]; [reflexivity|].
  destruct (http.Form r !! "message") as [msg|]; [|reflexivity].
  rewrite len_Split_pos, (index_last _ EmptyString), sliceTo_removelast
    by apply Split_nonempty.
  cbv beta iota zeta delta [mbind mret Handler_bind Handler_ret call return_
    rateLimited TrimSpace LastMessage ReplaceAllString IsProfane
    MatchString guest_NewGuest Insert].
  generalize (strings.Join msg " ") as message; intros message.
  generalize (strings.TrimSpace message) as trimmed; intros trimmed.
  generalize (newlineRegex_ReplaceAllString message " ") as text; intros text.
  match goal with
  | |- context [LastMessageCall ?i] => generalize i as ip; intros ip
  end.
  destruct (String.eqb trimmed ""); [reflexivity|].
  destruct (repo_LastMessage w ip) as [last_ [e|]];
    [|destruct (time.Since (Now w) (guest.CreatedAt last_) <? time.Minute);
      [reflexivity|]];
    (destruct (goaway_IsProfane w text); [reflexivity|];
     destruct (linkRegex_MatchString w text); [reflexivity|];
     destruct (NewGuest w text ip) as [g [e'|]]; [reflexivity|];
     destruct (repo_Insert w g); reflexivity).
Qed.

(** ** Newline normalization *)

Lemma string_ind2 (P : string -> Prop) :
  P EmptyString ->
  (forall c, P (String c EmptyString)) ->
  (forall c c' s, P s -> P (String c' s) -> P (String c (String c' s))) ->
  forall s, P s.
Proof.
  intros H0 H1 H2.
  assert (forall s, P s /\ forall c, P (String c s)) as H.
  { induction s as [|a s [IHs IHc]]; split; auto. }
  intros s. apply H.
Qed.

Lemma IndexByte_cons_absent (d : ascii) (s : string) (c : ascii) :
  strings.IndexByte (String d s) c = -1 <->
  d <> c /\ strings.IndexByte s c = -1.
Proof.
  assert (forall t, -1 <= strings.IndexByte t c) as Hlow.
  { induction t as [|e t IH]; simpl; [lia|].
    destruct (Ascii.eqb e c); [lia|].
    destruct (strings.IndexByte t c <? 0); lia. }
  simpl. destruct (Ascii.eqb_spec d c) as [->|Hne].
  - split; [lia|intros [H _]; congruence].
  - pose proof (Hlow s).
    destruct (Z.ltb_spec (strings.IndexByte s c) 0); split; intros; try split;
      auto; lia.
Qed.

Lemma IndexByte_app_absent (s t : string) (c : ascii) :
  strings.IndexByte s c = -1 -> strings.IndexByte t c = -1 ->
  strings.IndexByte (s +:+ t) c = -1.
Proof.
  induction s as [|d s IH]; intros Hs Ht; [exact Ht|].
  apply IndexByte_cons_absent in Hs as [Hd Hs].
  change (String d s +:+ t) with (String d (s +:+ t)).
  apply IndexByte_cons_absent. auto.
Qed.

Lemma append_assoc (s t u : string) : (s +:+ t) +:+ u = s +:+ (t +:+ u).
Proof.
  induction s as [|c s IH]; [reflexivity|].
  change (String c ((s +:+ t) +:+ u) = String c (s +:+ (t +:+ u))).
  f_equal. exact IH.
Qed.

Lemma CR_neq_LF : CR <> LF.
Proof. discriminate. Qed.

Lemma normalize_LF (s repl : string) :
  newlineRegex_ReplaceAllString (String LF s) repl =
  repl +:+ newlineRegex_ReplaceAllString s repl.
Proof. reflexivity. Qed.

Lemma normalize_CRLF (s repl : string) :
  newlineRegex_ReplaceAllString (String CR (String LF s)) repl =
  repl +:+ newlineRegex_ReplaceAllString s repl.
Proof. reflexivity. Qed.

Lemma normalize_CR_other (c : ascii) (s repl : string) :
  c <> LF ->
  newlineRegex_ReplaceAllString (String CR (String c s)) repl =
  String CR (newlineRegex_ReplaceAllString (String c s) repl).
Proof.
  intros Hc. cbn [newlineRegex_ReplaceAllString].
  change (Ascii.eqb CR CR) with true. cbv iota.
  destruct (Ascii.eqb_spec c LF); [congruence|reflexivity].
Qed.

Lemma normalize_other (c : ascii) (s repl : string) :
  c <> CR -> c <> LF ->
  newlineRegex_ReplaceAllString (String c s) repl =
  String c (newlineRegex_ReplaceAllString s repl).
Proof.
  intros Hcr Hlf. cbn [newlineRegex_ReplaceAllString].
  destruct (Ascii.eqb_spec c CR); [congruence|].
  destruct (Ascii.eqb_spec c LF); [congruence|reflexivity].
Qed.

(** What the replacement does at the head of a non-empty string. *)
Lemma normalize_cases (c : ascii) (s repl : string) :
  (c = LF /\ newlineRegex_ReplaceAllString (String c s) repl =
             repl +:+ newlineRegex_ReplaceAllString s repl) \/
  (exists s', c = CR /\ s = String LF s' /\
              newlineRegex_ReplaceAllString (String c s) repl =
              repl +:+ newlineRegex_ReplaceAllString s' repl) \/
  (c <> LF /\ newlineRegex_ReplaceAllString (String c s) repl =
              String c (newlineRegex_ReplaceAllString s repl)).
Proof.
  destruct (Ascii.eqb_spec c LF) as [->|Hlf].
  { left. split; reflexivity. }
  right. destruct (Ascii.eqb_spec c CR) as [->|Hcr].
  - destruct s as [|c' s'].
    + right. split; [exact Hlf|reflexivity].
    + destruct (Ascii.eqb_spec c' LF) as [->|Hc'].
      * left. exists s'. repeat split.
      * right. split; [exact Hlf|]. apply normalize_CR_other. exact Hc'.
  - right. split; [exact Hlf|]. apply normalize_other; assumption.
Qed.

Lemma normalize_no_LF (s : string) :
  strings.IndexByte (newlineRegex_ReplaceAllString s " ") LF = -1.
Proof.
  induction s as [|c|c c' s IHs IHc] using string_ind2.
  - reflexivity.
  - destruct (normalize_cases c EmptyString " ")
      as [[-> H]|[(s' & _ & E & _)|[Hc H]]].
    + reflexivity.
    + discriminate.
    + rewrite H. apply IndexByte_cons_absent. auto.
  - destruct (normalize_cases c (String c' s) " ")
      as [[-> H]|[(s' & -> & E & H)|[Hc H]]]; rewrite H.
    + apply IndexByte_app_absent; [reflexivity|exact IHc].
    + injection E as -> ->.
      apply IndexByte_app_absent; [reflexivity|exact IHs].
    + apply IndexByte_cons_absent. auto.
Qed.

Lemma normalize_fixed (s repl : string) :
  strings.IndexByte s LF = -1 -> newlineRegex_ReplaceAllString s repl = s.
Proof.
  induction s as [|c s IH]; intros H; [reflexivity|].
  apply IndexByte_cons_absent in H as [Hc Hs].
  assert (String.get 0 s <> Some LF) as Hget.
  { destruct s as [|c' s']; simpl; [discriminate|].
    apply IndexByte_cons_absent in Hs as [Hc' _]. congruence. }
  destruct (Ascii.eqb_spec c CR) as [->|Hcr].
  - destruct s as [|c' s']; [reflexivity|].
    rewrite normalize_CR_other by (simpl in Hget; congruence).
    rewrite IH by exact Hs. reflexivity.
  - rewrite normalize_other by assumption. rewrite IH by exact Hs. reflexivity.
Qed.

Lemma normalize_app_CR (p q repl : string) :
  String.get 0 q <> Some LF ->
  newlineRegex_ReplaceAllString (p +:+ String CR q) repl =
  newlineRegex_ReplaceAllString p repl +:+
  String CR (newlineRegex_ReplaceAllString q repl).
Proof.
  intros Hq.
  assert (newlineRegex_ReplaceAllString (String CR q) repl =
          String CR (newlineRegex_ReplaceAllString q repl)) as Hbase.
  { destruct q as [|c' q']; [reflexivity|].
    apply normalize_CR_other. simpl in Hq. congruence. }
  induction p as [|c|c c' p IHp IHc] using string_ind2.
  - exact Hbase.
  - change (String c EmptyString +:+ String CR q) with (String c (String CR q)).
    destruct (Ascii.eqb_spec c LF) as [->|Hlf].
    { rewrite !normalize_LF, Hbase. rewrite append_assoc. reflexivity. }
    destruct (Ascii.eqb_spec c CR) as [->|Hcr].
    + rewrite (normalize_CR_other CR) by exact CR_neq_LF.
      rewrite Hbase. reflexivity.
    + rewrite (normalize_other c (String CR q)), (normalize_other c EmptyString)
        by assumption.
      rewrite Hbase. reflexivity.
  - change (String c (String c' p) +:+ String CR q)
      with (String c (String c' p +:+ String CR q)).
    change (String c' p +:+ String CR q) with (String c' (p +:+ String CR q)) in *.
    destruct (Ascii.eqb_spec c LF) as [->|Hlf].
    { rewrite !normalize_LF, IHc. rewrite append_assoc. reflexivity. }
    destruct (Ascii.eqb_spec c CR) as [->|Hcr].
    + destruct (Ascii.eqb_spec c' LF) as [->|Hc'].
      * rewrite !normalize_CRLF, IHp. rewrite append_assoc. reflexivity.
      * rewrite (normalize_CR_other c' (p +:+ String CR q)),
          (normalize_CR_other c' p) by exact Hc'.
        rewrite IHc. reflexivity.
    + rewrite (normalize_other c (String c' (p +:+ String CR q))),
        (normalize_other c (String c' p)) by assumption.
      rewrite IHc. reflexivity.
Qed.

Lemma normalize_app (p q : string) :
  String.get 0 q <> Some LF ->
  newlineRegex_ReplaceAllString (p +:+ q) " " =
  newlineRegex_ReplaceAllString p " " +:+ newlineRegex_ReplaceAllString q " ".
Proof.
  intros Hq.
  induction p as [|c|c c' p IHp IHc] using string_ind2.
  - reflexivity.
  - change (String c EmptyString +:+ q) with (String c q).
    destruct (normalize_cases c q " ") as [[-> H]|[(s' & -> & E & H)|[Hc H]]].
    + exact H.
    + subst q. simpl in Hq. congruence.
    + rewrite H.
      destruct (normalize_cases c EmptyString " ")
        as [[-> _]|[(s'' & _ & E & _)|[_ H']]]; [congruence|discriminate|].
      rewrite H'. reflexivity.
  - change (String c (String c' p) +:+ q) with (String c (String c' (p +:+ q))).
    change (String c' p +:+ q) with (String c' (p +:+ q)) in IHc.
    destruct (Ascii.eqb_spec c LF) as [->|Hlf].
    { rewrite !normalize_LF, IHc, append_assoc. reflexivity. }
    destruct (Ascii.eqb_spec c CR) as [->|Hcr].
    + destruct (Ascii.eqb_spec c' LF) as [->|Hc'].
      * rewrite !normalize_CRLF, IHp, append_assoc. reflexivity.
      * rewrite (normalize_CR_other c' (p +:+ q)), (normalize_CR_other c' p)
          by exact Hc'.
        rewrite IHc. reflexivity.
    + rewrite (normalize_other c (String c' (p +:+ q))),
        (normalize_other c (String c' p)) by assumption.
      rewrite IHc. reflexivity.
Qed.

(** ** The paths of a submission *)

Lemma Since_lt_Minute (now t : time.Time) :
  (time.Since now t <? time.Minute) = true <-> now - t < time.Minute.
Proof.
  unfold time.Since, time.Sub.
  assert (time.minDuration = -9223372036854775808) as -> by reflexivity.
  assert (time.maxDuration = 9223372036854775807) as -> by reflexivity.
  assert (time.Minute = 60000000000) as -> by reflexivity.
  rewrite Z.ltb_lt.
  destruct (Z.ltb_spec (now - t) (-9223372036854775808)); [lia|].
  destruct (Z.ltb_spec 9223372036854775807 (now - t)); lia.
Qed.

Lemma rateLimited_true (w : World) (ip : net.IP) :
  rateLimited w ip = true <->
  exists last_, repo_LastMessage w ip = (last_, None) /\
                Now w - guest.CreatedAt last_ < time.Minute.
Proof.
  unfold rateLimited. destruct (repo_LastMessage w ip) as [g [e|]]; split.
  - discriminate.
  - intros (g' & H & _). congruence.
  - intros H. exists g. split; [reflexivity|]. apply Since_lt_Minute, H.
  - intros (g' & H & Hlt). injection H as <-. apply Since_lt_Minute, Hlt.
Qed.

Lemma rateLimited_false (w : World) (ip : net.IP) :
  rateLimited w ip = false <->
  forall last_, repo_LastMessage w ip = (last_, None) ->
                time.Minute <= Now w - guest.CreatedAt last_.
Proof.
  split.
  - intros Hf g Hg.
    destruct (Z.lt_ge_cases (Now w - guest.CreatedAt g) time.Minute) as [Hlt|];
      [|assumption].
    assert (rateLimited w ip = true) by (apply rateLimited_true; eauto).
    congruence.
  - intros H. destruct (rateLimited w ip) eqn:E; [|reflexivity].
    apply rateLimited_true in E as (g & Hg & Hlt). specialize (H g Hg). lia.
Qed.

Section Paths.

Variable w : World.
Variable r : http.Request.
Variable msg : list string.

Hypothesis parsed : http.ParseForm r = None.
Hypothesis field : http.Form r !! "message" = Some msg.

Lemma path_blank :
  strings.TrimSpace (joined msg) = EmptyString ->
  Create w r =
  ([TrimSpaceCall (joined msg); WriteHeader 400;
    ExecuteTemplate "error.html" blankPage], Return).
Proof.
  intros Hb. rewrite Create_paths. unfold CreatePaths.
  rewrite parsed, field, Hb. reflexivity.
Qed.

Lemma path_not_blank :
  strings.TrimSpace (joined msg) <> EmptyString ->
  Create w r = nonBlankPaths w r msg.
Proof.
  intros Hb. apply String.eqb_neq in Hb.
  rewrite Create_paths. unfold CreatePaths.
  rewrite parsed, field, Hb. reflexivity.
Qed.

Lemma path_limited :
  strings.TrimSpace (joined msg) <> EmptyString ->
  rateLimited w (clientIP r) = true ->
  Create w r =
  ([TrimSpaceCall (joined msg); LastMessageCall (clientIP r);
    SleepCall time.Minute], Return).
Proof.
  intros Hb Hl. rewrite (path_not_blank Hb). unfold nonBlankPaths.
  rewrite Hl. reflexivity.
Qed.

Lemma path_profane :
  strings.TrimSpace (joined msg) <> EmptyString ->
  rateLimited w (clientIP r) = false ->
  goaway_IsProfane w (normalized msg) = true ->
  Create w r =
  ([TrimSpaceCall (joined msg); LastMessageCall (clientIP r);
    ReplaceAllStringCall (joined msg) " "; IsProfaneCall (normalized msg);
    WriteHeader 400;
    ExecuteTemplate "error.html" (profanityPage (clientIP r))], Return).
Proof.
  intros Hb Hl Hp. rewrite (path_not_blank Hb). unfold nonBlankPaths.
  rewrite Hl, Hp. reflexivity.
Qed.

Lemma path_link :
  strings.TrimSpace (joined msg) <> EmptyString ->
  rateLimited w (clientIP r) = false ->
  goaway_IsProfane w (normalized msg) = false ->
  linkRegex_MatchString w (normalized msg) = true ->
  Create w r =
  ([TrimSpaceCall (joined msg); LastMessageCall (clientIP r);
    ReplaceAllStringCall (joined msg) " "; IsProfaneCall (normalized msg);
    MatchStringCall (normalized msg);
    WriteHeader 400; ExecuteTemplate "error.html" linkPage], Return).
Proof.
  intros Hb Hl Hp Hk. rewrite (path_not_blank Hb). unfold nonBlankPaths.
  rewrite Hl, Hp, Hk. reflexivity.
Qed.

Lemma path_accepted (g : guest.Guest) :
  strings.TrimSpace (joined msg) <> EmptyString ->
  rateLimited w (clientIP r) = false ->
  goaway_IsProfane w (normalized msg) = false ->
  linkRegex_MatchString w (normalized msg) = false ->
  NewGuest w (normalized msg) (clientIP r) = (g, None) ->
  repo_Insert w g = None ->
  Create w r =
  ([TrimSpaceCall (joined msg); LastMessageCall (clientIP r);
    ReplaceAllStringCall (joined msg) " "; IsProfaneCall (normalized msg);
    MatchStringCall (normalized msg);
    NewGuestCall (normalized msg) (clientIP r); InsertCall g;
    RedirectCall "/" 302], Next tt).
Proof.
  intros Hb Hl Hp Hk Hg Hi. rewrite (path_not_blank Hb). unfold nonBlankPaths.
  rewrite Hl, Hp, Hk, Hg, Hi. reflexivity.
Qed.

End Paths.

(** Case analysis along the paths of [Create], outermost test first. *)
Ltac on_paths := rewrite Create_paths; unfold CreatePaths, nonBlankPaths.

Ltac split_path :=
  match goal with
  | |- context [match http.ParseForm ?r with _ => _ end] =>
    destruct (http.ParseForm r) as [?|] eqn:?
  | |- context [match http.Form ?r !! ?k with _ => _ end] =>
    destruct (http.Form r !! k) as [?|] eqn:?
  | |- context [if String.eqb ?t ?u then _ else _] =>
    destruct (String.eqb_spec t u)
  | |- context [if rateLimited ?w ?i then _ else _] =>
    destruct (rateLimited w i) eqn:?
  | |- context [if goaway_IsProfane ?w ?t then _ else _] =>
    destruct (goaway_IsProfane w t) eqn:?
  | |- context [if linkRegex_MatchString ?w ?t then _ else _] =>
    destruct (linkRegex_MatchString w t) eqn:?
  | |- context [match NewGuest ?w ?t ?i with _ => _ end] =>
    destruct (NewGuest w t i) as [? [?|]] eqn:?
  | |- context [match repo_Insert ?w ?g with _ => _ end] =>
    destruct (repo_Insert w g) as [?|] eqn:?
  end.

Lemma Create_never_panics (w : World) (r : http.Request) (why : string) :
  flow (Create w r) <> Panic why.
Proof. on_paths. repeat split_path; discriminate. Qed.

(** The identity, by the two cases of the guard on the last entry of the
    forwarded-address header. *)
Lemma clientIP_forwarded (r : http.Request) (entry : string) :
  List.last (strings.Split (http.Header_Get (http.Header r) "X-Forwarded-For") ",")
            EmptyString = entry ->
  entry <> EmptyString ->
  clientIP r = net.ParseIP entry.
Proof.
  intros He Hne. unfold clientIP. rewrite He.
  apply String.eqb_neq in Hne. rewrite Hne. reflexivity.
Qed.

Lemma clientIP_connection (r : http.Request) :
  List.last (strings.Split (http.Header_Get (http.Header r) "X-Forwarded-For") ",")
            EmptyString = EmptyString ->
  clientIP r =
  net.ParseIP
    (strings.Trim
       (strings.Join (removelast (strings.Split (http.RemoteAddr r) ":")) ":")
       "[]").
Proof. intros He. unfold clientIP. rewrite He. reflexivity. Qed.

(** ** Texts that hold a link *)

Lemma prefix_app (s t : string) : String.prefix s (s +:+ t) = true.
Proof.
  induction s as [|c s IH]; [destruct t; reflexivity|].
  simpl. destruct (ascii_dec c c); [exact IH|congruence].
Qed.

Lemma Contains_app_l (p s sub : string) :
  strings.Contains s sub = true -> strings.Contains (p +:+ s) sub = true.
Proof.
  intros H. induction p as [|c p IH]; [exact H|].
  change (String c p +:+ s) with (String c (p +:+ s)).
  cbn [strings.Contains]. rewrite IH. apply orb_true_r.
Qed.

Lemma Contains_mid (p sub q : string) :
  strings.Contains (p +:+ sub +:+ q) sub = true.
Proof.
  apply Contains_app_l.
  assert (String.prefix sub (sub +:+ q) = true) as H by apply prefix_app.
  destruct (sub +:+ q); cbn [strings.Contains]; rewrite H; reflexivity.
Qed.

(** A name holds no byte but letters and digits. *)
Lemma name_absent (s : string) (c : ascii) :
  links.allAlnum s = true -> links.isAlnum c = false ->
  strings.IndexByte s c = -1.
Proof.
  intros Hs Hc. induction s as [|d s IH]; [reflexivity|].
  cbn [links.allAlnum] in Hs. apply andb_true_iff in Hs as [Hd Hs].
  apply IndexByte_cons_absent. split; [congruence|exact (IH Hs)].
Qed.

(** A link, as [links.containsLink] finds it, starts with a byte, and holds
    no line feed and no carriage return. *)
Lemma link_shape (schemes tlds : list string) (t : string) :
  links.schemeURL schemes t \/ links.bareDomain tlds t ->
  (exists c t', t = String c t') /\
  strings.IndexByte t LF = -1 /\ strings.IndexByte t CR = -1.
Proof.
  intros [(a & b & _ & [Ha Ha'] & [_ Hb'] & ->)|(a & b & _ & [_ Hb'] & [Ha Ha'] & ->)];
    (split; [destruct a as [|c a]; [congruence|]; exists c; eexists; reflexivity|]);
    split; repeat apply IndexByte_app_absent;
    solve [reflexivity | apply name_absent; [assumption|reflexivity]].
Qed.

(** The replacement leaves a text without line breaks as it is, whatever
    follows it. *)
Lemma normalize_clean_app (p q repl : string) :
  strings.IndexByte p LF = -1 -> strings.IndexByte p CR = -1 ->
  newlineRegex_ReplaceAllString (p +:+ q) repl =
  p +:+ newlineRegex_ReplaceAllString q repl.
Proof.
  induction p as [|c p IH]; intros Hlf Hcr; [reflexivity|].
  apply IndexByte_cons_absent in Hlf as [Hc Hlf].
  apply IndexByte_cons_absent in Hcr as [Hc' Hcr].
  change (String c p +:+ q) with (String c (p +:+ q)).
  rewrite (normalize_other c (p +:+ q)) by assumption.
  rewrite (IH Hlf Hcr). reflexivity.
Qed.

Lemma wordBreak_normalize (post : string) :
  links.wordBreak post ->
  links.wordBreak (newlineRegex_ReplaceAllString post " ").
Proof.
  destruct post as [|c post]; [exact (fun H => H)|]. intros H.
  destruct (normalize_cases c post " ") as [[_ E]|[(s' & _ & _ & E)|[_ E]]];
    rewrite E; [reflexivity|reflexivity|exact H].
Qed.

(** A link in a text is still there once the newlines are replaced. *)
Lemma containsLink_normalize (schemes tlds : list string) (s : string) :
  links.containsLink schemes tlds s ->
  links.containsLink schemes tlds (newlineRegex_ReplaceAllString s " ").
Proof.
  intros (pre & t & post & -> & H).
  assert (links.schemeURL schemes t \/ links.bareDomain tlds t) as Ht
    by (destruct H as [H|[H _]]; auto).
  destruct (link_shape schemes tlds t Ht) as ((c & t' & Et) & Hlf & Hcr).
  exists (newlineRegex_ReplaceAllString pre " "), t,
         (newlineRegex_ReplaceAllString post " ").
  split.
  - rewrite normalize_app.
    + rewrite (normalize_clean_app t post " " Hlf Hcr). reflexivity.
    + subst t. apply IndexByte_cons_absent in Hlf as [Hc _].
      simpl. congruence.
  - destruct H as [H|[H Hb]]; [left; exact H|right].
    split; [exact H|exact (wordBreak_normalize post Hb)].
Qed.

(** The sample pattern catches every link, whatever the tables. *)
Lemma anyLink_catches (schemes tlds : list string) :
  links.catches schemes tlds Cases.anyLink.
Proof.
  intros s (pre & t & post & -> & [(a & b & _ & _ & _ & ->)|[(a & b & _ & _ & _ & ->) _]]);
    unfold Cases.anyLink; apply orb_true_iff; [left|right].
  - replace (pre +:+ (a +:+ "://" +:+ b) +:+ post)
      with ((pre +:+ a) +:+ "://" +:+ (b +:+ post))
      by (rewrite !append_assoc; reflexivity).
    apply Contains_mid.
  - replace (pre +:+ (a +:+ "." +:+ b) +:+ post)
      with ((pre +:+ a) +:+ "." +:+ (b +:+ post))
      by (rewrite !append_assoc; reflexivity).
    apply Contains_mid.
Qed.

(** ** The claims *)

(** C1, as stated, fails: a blank message from an identity whose last entry
    is ten seconds old is answered by the blank-message rejection; the
    handler neither looks the identity up nor sleeps. *)
Lemma C1_blank_message_not_throttled :
  (exists last_,
     repo_LastMessage Sample.throttled (clientIP Sample.blankPost) = (last_, None) /\
     Now Sample.throttled - guest.CreatedAt last_ < time.Minute) /\
  Create Sample.throttled Sample.blankPost =
    ([TrimSpaceCall "   "; WriteHeader 400;
      ExecuteTemplate "error.html" blankPage], Return) /\
  slept (log (Create Sample.throttled Sample.blankPost)) <> [time.Minute] /\
  response (log (Create Sample.throttled Sample.blankPost)) <> [].
Proof.
  split; [|split; [|split]].
  - eexists. split; [reflexivity|]. vm_compute. reflexivity.
  - vm_compute. reflexivity.
  - vm_compute. discriminate.
  - vm_compute. discriminate.
Qed.

(** C1, amended: for every submission with a parsed form and a message that
    is not blank, if the lookup of the resolved identity returns an entry
    less than 60 seconds old, the handler sleeps one minute and returns:
    nothing is written to the response and nothing is inserted. *)
Theorem C1_recent_submission_throttled
    (w : World) (r : http.Request) (msg : list string) (last_ : guest.Guest) :
  http.ParseForm r = None ->
  http.Form r !! "message" = Some msg ->
  strings.TrimSpace (joined msg) <> EmptyString ->
  repo_LastMessage w (clientIP r) = (last_, None) ->
  Now w - guest.CreatedAt last_ < time.Minute ->
  Create w r =
    ([TrimSpaceCall (joined msg); LastMessageCall (clientIP r);
      SleepCall time.Minute], Return) /\
  slept (log (Create w r)) = [time.Minute] /\
  response (log (Create w r)) = [] /\
  inserted (log (Create w r)) = [].
Proof.
  intros Hp Hf Hb Hl Hage.
  assert (rateLimited w (clientIP r) = true) as Hlim
    by (apply rateLimited_true; eauto).
  rewrite (path_limited w r msg Hp Hf Hb Hlim). repeat split.
Qed.

Lemma C1_recent_submission_throttled_witness :
  Create Sample.throttled Sample.helloPost =
    ([TrimSpaceCall "Hello world"; LastMessageCall (clientIP Sample.helloPost);
      SleepCall time.Minute], Return) /\
  slept (log (Create Sample.throttled Sample.helloPost)) = [time.Minute] /\
  response (log (Create Sample.throttled Sample.helloPost)) = [] /\
  inserted (log (Create Sample.throttled Sample.helloPost)) = [].
Proof.
  apply (C1_recent_submission_throttled Sample.throttled Sample.helloPost
           ["Hello world"]
           (fst (Sample.recordAt (90 * time.Second) (clientIP Sample.helloPost)))).
  - reflexivity.
  - reflexivity.
  - vm_compute. discriminate.
  - reflexivity.
  - vm_compute. reflexivity.
Defined.

(** C2: the code at the claim's own header value.  The last entry of
    "1.2.3.4, 5.6.7.8" is " 5.6.7.8", with its leading space; it is not
    empty, so it is parsed as it is, the parse fails and the identity is
    nil, not 5.6.7.8.  Without the space the last entry is the identity. *)
Theorem C2_forwarded_entry_not_trimmed :
  List.last (strings.Split "1.2.3.4, 5.6.7.8" ",") EmptyString = " 5.6.7.8" /\
  clientIP Sample.twoHopPost = [] /\
  lookups (log (Create Sample.fresh Sample.twoHopPost)) = [[]] /\
  net.String_ (net.ParseIP "5.6.7.8") = "5.6.7.8" /\
  clientIP (Sample.post "Hello world" (Some "1.2.3.4,5.6.7.8") Sample.peer) =
    net.ParseIP "5.6.7.8".
Proof. repeat split; vm_compute; reflexivity. Qed.

(** C3: [guest.NewGuest] and [Insert] are called only after every gate has
    passed, [Insert] with the entry that [guest.NewGuest] built from the
    normalized text and the resolved identity, and at most once;
    each of the four rejections ends the run with nothing constructed or
    inserted; and a submission "Hello world" without a previous entry,
    which the detectors do not flag and which the guest constructor and
    the repository accept, is answered by the redirect after exactly one
    insert, of an entry whose text is "Hello world". *)
Theorem C3_insert_only_after_every_gate (w : World) (r : http.Request) :
  (forall text ip,
     In (NewGuestCall text ip) (log (Create w r)) ->
     exists msg,
       http.ParseForm r = None /\
       http.Form r !! "message" = Some msg /\
       strings.TrimSpace (joined msg) <> EmptyString /\
       rateLimited w (clientIP r) = false /\
       goaway_IsProfane w (normalized msg) = false /\
       linkRegex_MatchString w (normalized msg) = false /\
       text = normalized msg /\ ip = clientIP r) /\
  (forall g,
     In (InsertCall g) (log (Create w r)) ->
     exists msg,
       http.ParseForm r = None /\
       http.Form r !! "message" = Some msg /\
       strings.TrimSpace (joined msg) <> EmptyString /\
       rateLimited w (clientIP r) = false /\
       goaway_IsProfane w (normalized msg) = false /\
       linkRegex_MatchString w (normalized msg) = false /\
       NewGuest w (normalized msg) (clientIP r) = (g, None) /\
       inserted (log (Create w r)) = [g]) /\
  (forall msg,
     http.ParseForm r = None ->
     http.Form r !! "message" = Some msg ->
     strings.TrimSpace (joined msg) = EmptyString \/
     rateLimited w (clientIP r) = true \/
     goaway_IsProfane w (normalized msg) = true \/
     linkRegex_MatchString w (normalized msg) = true ->
     flow (Create w r) = Return /\
     constructed (log (Create w r)) = [] /\
     inserted (log (Create w r)) = [] /\
     exists checked final,
       log (Create w r) = checked ++ final /\
       response checked = [] /\
       (final = [SleepCall time.Minute] \/
        exists page,
          final = [WriteHeader 400; ExecuteTemplate "error.html" page])) /\
  (forall e,
     http.ParseForm r = None ->
     http.Form r !! "message" = Some ["Hello world"] ->
     snd (repo_LastMessage w (clientIP r)) = Some e ->
     goaway_IsProfane w "Hello world" = false ->
     linkRegex_MatchString w "Hello world" = false ->
     NewGuest_err w "Hello world" (clientIP r) = None ->
     repo_Insert w {| guest.Message := "Hello world"; guest.IP := clientIP r;
                      guest.CreatedAt := NewGuest_now w |} = None ->
     response (log (Create w r)) = [RedirectCall "/" http.StatusFound] /\
     inserted (log (Create w r)) =
       [{| guest.Message := "Hello world"; guest.IP := clientIP r;
           guest.CreatedAt := NewGuest_now w |}] /\
     flow (Create w r) = Next tt).
Proof.
  split; [|split; [|split]].
  - intros text ip. on_paths.
    repeat split_path; simpl; intros Hin;
      try solve [exfalso; intuition discriminate];
      eexists; repeat split; try eassumption; intuition congruence.
  - intros g. on_paths.
    repeat split_path; try (simpl; intuition discriminate);
      match goal with
      | Hg : NewGuest _ _ _ = (?g', None) |- _ =>
        intros Hin;
        assert (g' = g) as <- by (simpl in Hin; intuition congruence);
        eexists; repeat split; first [eassumption | reflexivity]
      end.
  - intros msg Hp Hf Hrej.
    destruct (String.eqb_spec (strings.TrimSpace (joined msg)) "") as [Hb|Hb].
    { rewrite (path_blank w r msg Hp Hf Hb). repeat split.
      exists [TrimSpaceCall (joined msg)],
        [WriteHeader 400; ExecuteTemplate "error.html" blankPage].
      repeat split. right. eexists; reflexivity. }
    destruct (rateLimited w (clientIP r)) eqn:Hl.
    { rewrite (path_limited w r msg Hp Hf Hb Hl). repeat split.
      exists [TrimSpaceCall (joined msg); LastMessageCall (clientIP r)],
        [SleepCall time.Minute].
      repeat split. left. reflexivity. }
    destruct (goaway_IsProfane w (normalized msg)) eqn:Hpr.
    { rewrite (path_profane w r msg Hp Hf Hb Hl Hpr). repeat split.
      eexists [_; _; _; _], [_; _]. repeat split. right. eexists; reflexivity. }
    destruct (linkRegex_MatchString w (normalized msg)) eqn:Hk.
    { rewrite (path_link w r msg Hp Hf Hb Hl Hpr Hk). repeat split.
      eexists [_; _; _; _; _], [_; _]. repeat split. right. eexists; reflexivity. }
    destruct Hrej as [?|[?|[?|?]]]; congruence.
  - intros e Hp Hf Hlook Hpr Hk Hg Hi.
    assert (normalized ["Hello world"] = "Hello world") as Htext by reflexivity.
    rewrite (path_accepted w r ["Hello world"] Hp Hf
               {| guest.Message := "Hello world"; guest.IP := clientIP r;
                  guest.CreatedAt := NewGuest_now w |}).
    + repeat split.
    + vm_compute. discriminate.
    + unfold rateLimited. destruct (repo_LastMessage w (clientIP r)) as [g0 o].
      simpl in Hlook. rewrite Hlook. reflexivity.
    + rewrite Htext. exact Hpr.
    + rewrite Htext. exact Hk.
    + rewrite Htext. unfold NewGuest. rewrite Hg. reflexivity.
    + exact Hi.
Qed.

Lemma C3_insert_only_after_every_gate_witness :
  response (log (Create Sample.fresh Sample.helloPost)) =
    [RedirectCall "/" http.StatusFound] /\
  inserted (log (Create Sample.fresh Sample.helloPost)) =
    [{| guest.Message := "Hello world"; guest.IP := clientIP Sample.helloPost;
        guest.CreatedAt := NewGuest_now Sample.fresh |}] /\
  flow (Create Sample.fresh Sample.helloPost) = Next tt.
Proof.
  apply (proj2 (proj2 (proj2 (C3_insert_only_after_every_gate
                                Sample.fresh Sample.helloPost)))
           "no rows in result set").
  - reflexivity.
  - reflexivity.
  - reflexivity.
  - vm_compute. reflexivity.
  - vm_compute. reflexivity.
  - reflexivity.
  - reflexivity.
Defined.

(** C4: for every submission with a parsed form whose message field is
    present and whose joined text is empty after trimming, the handler
    answers 400 with the page "Blank messages don't count", whatever the
    headers, the remote address and the collaborators' state; it does so
    before any lookup. *)
Theorem C4_blank_message_rejected
    (w : World) (r : http.Request) (msg : list string) :
  http.ParseForm r = None ->
  http.Form r !! "message" = Some msg ->
  strings.TrimSpace (joined msg) = EmptyString ->
  Create w r =
    ([TrimSpaceCall (joined msg); WriteHeader http.StatusBadRequest;
      ExecuteTemplate "error.html"
        {| ErrorMessage := "Blank messages don't count" |}], Return).
Proof. intros Hp Hf Hb. exact (path_blank w r msg Hp Hf Hb). Qed.

Lemma C4_blank_message_rejected_witness :
  Create Sample.throttled Sample.blankPost =
    ([TrimSpaceCall "   "; WriteHeader 400;
      ExecuteTemplate "error.html"
        {| ErrorMessage := "Blank messages don't count" |}], Return).
Proof.
  apply (C4_blank_message_rejected Sample.throttled Sample.blankPost ["   "]).
  - reflexivity.
  - reflexivity.
  - vm_compute. reflexivity.
Defined.

(** A message made of ASCII white space only is such a message. *)
Corollary whitespace_message_rejected
    (w : World) (r : http.Request) (msg : list string) :
  http.ParseForm r = None ->
  http.Form r !! "message" = Some msg ->
  strings.onlyBytes asciiSpace (joined msg) = true ->
  response (log (Create w r)) =
    [WriteHeader http.StatusBadRequest; ExecuteTemplate "error.html" blankPage] /\
  lookups (log (Create w r)) = [].
Proof.
  intros Hp Hf Hws.
  rewrite (path_blank w r msg Hp Hf (TrimSpace_asciiSpace _ Hws)).
  split; reflexivity.
Qed.

(** C5, as stated, fails: a submission that is not blank and not rate
    limited, whose text holds a scheme-prefixed URL and a word of the
    lexicon, is rejected for profanity; the link pattern is not consulted,
    be it the pattern of [Sample.fresh] or the more permissive one of
    [Cases.permissive]. *)
Lemma C5_profane_text_with_link_is_rejected_as_profane :
  strings.TrimSpace "shit http://evil.example" <> EmptyString /\
  rateLimited Sample.fresh (clientIP Sample.rudeLinkPost) = false /\
  linkRegex_MatchString Sample.fresh
    (newlineRegex_ReplaceAllString "shit http://evil.example" " ") = true /\
  Create Sample.fresh Sample.rudeLinkPost =
    ([TrimSpaceCall "shit http://evil.example";
      LastMessageCall (clientIP Sample.rudeLinkPost);
      ReplaceAllStringCall "shit http://evil.example" " ";
      IsProfaneCall "shit http://evil.example";
      WriteHeader 400;
      ExecuteTemplate "error.html" (profanityPage (clientIP Sample.rudeLinkPost))],
     Return) /\
  ~ In (ExecuteTemplate "error.html" linkPage)
       (log (Create Sample.fresh Sample.rudeLinkPost)) /\
  links.containsLink Cases.schemes Cases.tlds "shit http://evil.example" /\
  linkRegex_MatchString Cases.permissive
    (newlineRegex_ReplaceAllString "shit http://evil.example" " ") = true /\
  Create Cases.permissive Sample.rudeLinkPost =
    Create Sample.fresh Sample.rudeLinkPost.
Proof.
  split; [vm_compute; discriminate|].
  split; [vm_compute; reflexivity|].
  split; [vm_compute; reflexivity|].
  split; [vm_compute; reflexivity|].
  split; [vm_compute; intuition discriminate|].
  split; [|split; vm_compute; reflexivity].
  exists "shit ", "http://evil", ".example". split; [reflexivity|].
  left. exists "http", "evil". simpl.
  repeat split; solve [auto | discriminate].
Qed.

(** C5, amended: for every submission with a parsed form and a message
    that is not blank and not rate limited, whose normalized text the
    profanity detector does not flag and whose text holds a bare domain or
    a scheme-prefixed URL anywhere, the answer is 400 with the page "No
    links allowed", and nothing is inserted; the link pattern being one
    that catches bare domains and scheme-prefixed URLs. *)
Theorem C5_text_with_link_rejected_unless_profane
    (schemes tlds : list string)
    (w : World) (r : http.Request) (msg : list string) :
  links.catches schemes tlds (linkRegex_MatchString w) ->
  http.ParseForm r = None ->
  http.Form r !! "message" = Some msg ->
  strings.TrimSpace (joined msg) <> EmptyString ->
  rateLimited w (clientIP r) = false ->
  goaway_IsProfane w (normalized msg) = false ->
  links.containsLink schemes tlds (joined msg) ->
  response (log (Create w r)) =
    [WriteHeader http.StatusBadRequest;
     ExecuteTemplate "error.html" {| ErrorMessage := "No links allowed" |}] /\
  inserted (log (Create w r)) = [] /\
  flow (Create w r) = Return.
Proof.
  intros Hw Hp Hf Hb Hl Hpr Hk.
  apply containsLink_normalize, Hw in Hk.
  rewrite (path_link w r msg Hp Hf Hb Hl Hpr Hk). repeat split.
Qed.

Lemma C5_text_with_link_rejected_unless_profane_witness :
  (response (log (Create Cases.permissive Sample.linkPost)) =
     [WriteHeader http.StatusBadRequest;
      ExecuteTemplate "error.html" {| ErrorMessage := "No links allowed" |}] /\
   inserted (log (Create Cases.permissive Sample.linkPost)) = [] /\
   flow (Create Cases.permissive Sample.linkPost) = Return) /\
  (response (log (Create Cases.permissive Cases.domainPost)) =
     [WriteHeader http.StatusBadRequest;
      ExecuteTemplate "error.html" {| ErrorMessage := "No links allowed" |}] /\
   inserted (log (Create Cases.permissive Cases.domainPost)) = [] /\
   flow (Create Cases.permissive Cases.domainPost) = Return).
Proof.
  split.
  - apply (C5_text_with_link_rejected_unless_profane Cases.schemes Cases.tlds
             Cases.permissive Sample.linkPost ["visit http://evil.example now"]).
    + exact (anyLink_catches Cases.schemes Cases.tlds).
    + reflexivity.
    + reflexivity.
    + vm_compute. discriminate.
    + reflexivity.
    + vm_compute. reflexivity.
    + exists "visit ", "http://evil", ".example now". split; [reflexivity|].
      left. exists "http", "evil". simpl.
      repeat split; solve [auto | discriminate].
  - apply (C5_text_with_link_rejected_unless_profane Cases.schemes Cases.tlds
             Cases.permissive Cases.domainPost ["see example.com"]).
    + exact (anyLink_catches Cases.schemes Cases.tlds).
    + reflexivity.
    + reflexivity.
    + vm_compute. discriminate.
    + reflexivity.
    + vm_compute. reflexivity.
    + exists "see ", "example.com", EmptyString. split; [reflexivity|].
      right. split; [|exact I].
      exists "example", "com". simpl.
      repeat split; solve [auto | discriminate].
Defined.

(** C6, as stated, fails: with a forwarded-address header that is not an
    address the identity is nil, and the handler still calls [LastMessage],
    with the nil identity. *)
Lemma C6_absent_identity_still_looked_up :
  clientIP Sample.unknownPost = [] /\
  lookups (log (Create Sample.fresh Sample.unknownPost)) = [[]] /\
  In (LastMessageCall []) (log (Create Sample.fresh Sample.unknownPost)).
Proof.
  split; [|split].
  - vm_compute. reflexivity.
  - vm_compute. reflexivity.
  - vm_compute. right. left. reflexivity.
Qed.

(** C6, amended: when the resolved identity is nil the handler does not
    panic; for a message that is not blank it calls [LastMessage] once,
    with the nil identity, and sleeps if the rate limiter's test holds of
    the result, as for any identity; and the profanity page shows the
    identity as "<nil>". *)
Theorem C6_absent_identity (w : World) (r : http.Request) :
  clientIP r = [] ->
  (forall why, flow (Create w r) <> Panic why) /\
  (forall msg,
     http.ParseForm r = None ->
     http.Form r !! "message" = Some msg ->
     strings.TrimSpace (joined msg) <> EmptyString ->
     lookups (log (Create w r)) = [[]] /\
     (rateLimited w [] = true -> slept (log (Create w r)) = [time.Minute]) /\
     (rateLimited w [] = false ->
      goaway_IsProfane w (normalized msg) = true ->
      response (log (Create w r)) =
        [WriteHeader http.StatusBadRequest;
         ExecuteTemplate "error.html"
           {| ErrorMessage :=
                "Please don't use profanity. Your IP has been tracked <nil>" |}])).
Proof.
  intros Hnil. split; [intros why; apply Create_never_panics|].
  intros msg Hp Hf Hb. rewrite (path_not_blank w r msg Hp Hf Hb).
  unfold nonBlankPaths. rewrite Hnil. split; [|split].
  - repeat split_path; reflexivity.
  - intros ->. reflexivity.
  - intros -> ->. reflexivity.
Qed.

Lemma C6_absent_identity_witness :
  lookups (log (Create Sample.fresh Sample.rudePost)) = [[]] /\
  response (log (Create Sample.fresh Sample.rudePost)) =
    [WriteHeader http.StatusBadRequest;
     ExecuteTemplate "error.html"
       {| ErrorMessage :=
            "Please don't use profanity. Your IP has been tracked <nil>" |}].
Proof.
  destruct (C6_absent_identity Sample.fresh Sample.rudePost) as [_ H].
  - vm_compute. reflexivity.
  - destruct (H ["shit"]) as (Hlook & _ & Hpage).
    + reflexivity.
    + reflexivity.
    + vm_compute. discriminate.
    + split; [exact Hlook|]. apply Hpage; vm_compute; reflexivity.
Defined.

(** C7: when the lookup of the resolved identity returns an error (no entry
    found, or any other failure) or an entry at least 60 seconds old, the
    handler never sleeps, and a submission that is not blank goes straight
    on to normalization and the profanity check. *)
Theorem C7_rate_limiter_fails_open (w : World) (r : http.Request) :
  (forall last_, repo_LastMessage w (clientIP r) = (last_, None) ->
                 time.Minute <= Now w - guest.CreatedAt last_) ->
  slept (log (Create w r)) = [] /\
  forall msg,
    http.ParseForm r = None ->
    http.Form r !! "message" = Some msg ->
    strings.TrimSpace (joined msg) <> EmptyString ->
    [TrimSpaceCall (joined msg); LastMessageCall (clientIP r);
     ReplaceAllStringCall (joined msg) " "; IsProfaneCall (normalized msg)]
    `prefix_of` log (Create w r).
Proof.
  intros Hold. apply rateLimited_false in Hold. split.
  - on_paths. repeat split_path; solve [reflexivity | congruence].
  - intros msg Hp Hf Hb. rewrite (path_not_blank w r msg Hp Hf Hb).
    unfold nonBlankPaths. rewrite Hold.
    repeat split_path; eexists; reflexivity.
Qed.

Lemma C7_rate_limiter_fails_open_witness :
  slept (log (Create Sample.settled Sample.helloPost)) = [] /\
  slept (log (Create Sample.fresh Sample.helloPost)) = [].
Proof.
  split.
  - apply (C7_rate_limiter_fails_open Sample.settled Sample.helloPost).
    intros last_ H. injection H as <-. vm_compute. discriminate.
  - apply (C7_rate_limiter_fails_open Sample.fresh Sample.helloPost).
    intros last_ H. discriminate H.
Defined.



(** C9: newline normalization is idempotent. *)
Theorem C9_normalization_idempotent (s : string) :
  newlineRegex_ReplaceAllString (newlineRegex_ReplaceAllString s " ") " " =
  newlineRegex_ReplaceAllString s " ".
Proof. apply normalize_fixed, normalize_no_LF. Qed.

(** C10: the normalized text holds no line feed; a carriage return that is
    not followed by a line feed stays where it is, the text before it and
    the text after it being normalized on their own; a text without line
    feed is left as it is; and the text handed to [guest.NewGuest] is the
    normalized text. *)
Theorem C10_no_line_feed_bare_carriage_return_kept :
  (forall s, strings.IndexByte (newlineRegex_ReplaceAllString s " ") LF = -1) /\
  (forall p q,
     String.get 0 q <> Some LF ->
     newlineRegex_ReplaceAllString (p +:+ String CR q) " " =
     newlineRegex_ReplaceAllString p " " +:+
     String CR (newlineRegex_ReplaceAllString q " ")) /\
  (forall s, strings.IndexByte s LF = -1 ->
             newlineRegex_ReplaceAllString s " " = s) /\
  (forall w r msg text ip,
     http.Form r !! "message" = Some msg ->
     In (NewGuestCall text ip) (log (Create w r)) ->
     text = normalized msg).
Proof.
  split; [exact normalize_no_LF|].
  split; [intros p q; apply normalize_app_CR|].
  split; [intros s; apply normalize_fixed|].
  intros w r msg text ip Hf. on_paths. rewrite Hf.
  repeat split_path; simpl; intuition congruence.
Qed.

Lemma C10_no_line_feed_bare_carriage_return_kept_witness :
  newlineRegex_ReplaceAllString
    ("a" +:+ String CR (String LF "b") +:+ String CR "c") " " =
  "a b" +:+ String CR "c" /\
  newlineRegex_ReplaceAllString ("a" +:+ String CR "c") " " = "a" +:+ String CR "c".
Proof.
  destruct C10_no_line_feed_bare_carriage_return_kept as (_ & Hcr & Hfix & _).
  split.
  - apply (Hcr ("a" +:+ String CR (String LF "b")) "c"). simpl. discriminate.
  - apply (Hfix ("a" +:+ String CR "c")). vm_compute. reflexivity.
Defined.

(** * Further properties of the handlers *)

(** ** The runs of [Create] *)

(** X1: no run of [Create] panics, whatever the headers and the remote
    address: the index into the pieces of the forwarded-address header and
    the slice of the pieces of the remote address are always in range.
    Every run ends by a return or by falling off the end of the body. *)
Theorem Create_returns (w : World) (r : http.Request) :
  flow (Create w r) = Return \/ flow (Create w r) = Next tt.
Proof. on_paths. repeat split_path; auto. Qed.

(** X2: a run of [Create] writes at most one status: its calls on the
    response writer are none at all, a bare 400, a 400 followed by the
    error page, a bare 500, or the redirect to "/" with 302. *)
Theorem Create_response_shapes (w : World) (r : http.Request) :
  response (log (Create w r)) = [] \/
  response (log (Create w r)) = [WriteHeader 400] \/
  (exists page,
     response (log (Create w r)) =
       [WriteHeader 400; ExecuteTemplate "error.html" page]) \/
  response (log (Create w r)) = [WriteHeader 500] \/
  response (log (Create w r)) = [RedirectCall "/" 302].
Proof.
  on_paths.
  repeat split_path; cbn; auto; right; right; left; eexists; reflexivity.
Qed.


(** X4: [Create] redirects exactly when it called [Insert] and the
    repository accepted the entry. *)
Theorem Create_redirects_exactly_after_insert (w : World) (r : http.Request) :
  response (log (Create w r)) = [RedirectCall "/" 302] <->
  exists g, inserted (log (Create w r)) = [g] /\ repo_Insert w g = None.
Proof.
  on_paths.
  repeat split_path; cbn; split;
    try solve [ intros H; discriminate H
              | intros (? & H & _); discriminate H
              | intros _; eexists; split; [reflexivity|assumption]
              | intros _; reflexivity ].
  intros (g' & H & Hg). injection H as <-. congruence.
Qed.

(** X5: the only runs that leave the response untouched are those that
    slept the minute of the rate limiter. *)
Theorem Create_silent_exactly_when_throttled (w : World) (r : http.Request) :
  response (log (Create w r)) = [] <-> slept (log (Create w r)) = [time.Minute].
Proof.
  on_paths.
  repeat split_path; cbn; split;
    solve [intros H; discriminate H | intros _; reflexivity].
Qed.

(** Reads an equation that cuts a log of known calls at one call. *)
Ltac cut_log H :=
  lazymatch type of H with
  | [] = ?pre ++ _ :: _ => destruct pre; discriminate H
  | _ :: _ = ?pre ++ _ :: _ =>
    let c := fresh "c" in
    let pre' := fresh "pre" in
    destruct pre as [|c pre']; cbn [app] in H;
    [ try discriminate H; injection H as ? ?; subst
    | let H' := fresh "H" in injection H as ? H'; subst c; cut_log H' ]
  end.

(** X6: the order of the calls to the collaborators in a run of [Create].
    The repository is looked up at most once; the handler sleeps only
    after the lookup, and then constructs and inserts nothing; an entry is
    constructed only after the lookup, for the identity looked up, before
    any insert and once; [Insert] is called only after the entry was
    constructed, and once. *)
Theorem Create_collaborator_order (w : World) (r : http.Request) :
  (length (lookups (log (Create w r))) <= 1)%nat /\
  (forall pre d post, log (Create w r) = pre ++ SleepCall d :: post ->
     lookups pre = [clientIP r] /\
     constructed (log (Create w r)) = [] /\
     inserted (log (Create w r)) = []) /\
  (forall pre text ip post,
     log (Create w r) = pre ++ NewGuestCall text ip :: post ->
     lookups pre = [ip] /\ inserted pre = [] /\ constructed pre = [] /\
     constructed post = [] /\ slept (log (Create w r)) = []) /\
  (forall pre g post, log (Create w r) = pre ++ InsertCall g :: post ->
     (exists text ip, constructed pre = [(text, ip)]) /\
     inserted pre = [] /\ inserted post = []).
Proof.
  on_paths.
  repeat split_path; cbn; (split; [lia|]);
    repeat split; intros; cut_log H; cbn; eauto.
Qed.

Lemma Create_collaborator_order_witness :
  (lookups (firstn 2 (log (Create Sample.throttled Sample.helloPost))) =
     [clientIP Sample.helloPost] /\
   constructed (log (Create Sample.throttled Sample.helloPost)) = [] /\
   inserted (log (Create Sample.throttled Sample.helloPost)) = []) /\
  ((exists text ip,
      constructed (firstn 6 (log (Create Sample.fresh Sample.helloPost))) =
        [(text, ip)]) /\
   inserted (firstn 6 (log (Create Sample.fresh Sample.helloPost))) = [] /\
   inserted [RedirectCall "/" 302] = []).
Proof.
  split.
  - apply (proj1 (proj2 (Create_collaborator_order Sample.throttled Sample.helloPost))
             (firstn 2 (log (Create Sample.throttled Sample.helloPost)))
             time.Minute []).
    vm_compute. reflexivity.
  - apply (proj2 (proj2 (proj2
             (Create_collaborator_order Sample.fresh Sample.helloPost)))
             (firstn 6 (log (Create Sample.fresh Sample.helloPost)))
             (fst (NewGuest Sample.fresh "Hello world" (clientIP Sample.helloPost)))
             [RedirectCall "/" 302]).
    vm_compute. reflexivity.
Defined.

(** X7: when the form does not parse, or has no field "message", nothing
    of the submission is examined: no check runs, the repository is
    neither read nor written (no lookup, no entry constructed, none
    inserted) and the handler does not sleep, whatever else the form holds
    and however recent the last entry of the identity. *)
Theorem Create_unread_form (w : World) (r : http.Request) :
  http.ParseForm r <> None \/ http.Form r !! "message" = None ->
  checks (log (Create w r)) = [] /\
  lookups (log (Create w r)) = [] /\
  slept (log (Create w r)) = [] /\
  constructed (log (Create w r)) = [] /\
  inserted (log (Create w r)) = [] /\
  (response (log (Create w r)) = [WriteHeader 500] \/
   response (log (Create w r)) = [WriteHeader 400]).
Proof.
  intros H. on_paths.
  destruct (http.ParseForm r) as [err|]; [cbn; auto 7|].
  destruct H as [H|H]; [congruence|]. rewrite H. cbn. auto 7.
Qed.

Lemma Create_unread_form_witness :
  (inserted (log (Create Sample.throttled Cases.brokenForm)) = [] /\
   response (log (Create Sample.throttled Cases.brokenForm)) = [WriteHeader 500]) /\
  (inserted (log (Create Sample.throttled Cases.noField)) = [] /\
   response (log (Create Sample.throttled Cases.noField)) = [WriteHeader 400]).
Proof.
  split.
  - destruct (Create_unread_form Sample.throttled Cases.brokenForm)
      as (_ & _ & _ & _ & Hi & [H|H]).
    + left. simpl. discriminate.
    + exact (conj Hi H).
    + vm_compute in H. discriminate H.
  - destruct (Create_unread_form Sample.throttled Cases.noField)
      as (_ & _ & _ & _ & Hi & [H|H]).
    + right. reflexivity.
    + vm_compute in H. discriminate H.
    + exact (conj Hi H).
Defined.

(** ** The pieces of a split *)

Lemma Split_absent (s : string) (sep : ascii) :
  strings.IndexByte s sep = -1 -> strings.Split s sep = [s].
Proof.
  induction s as [|c s IH]; intros H; [reflexivity|].
  apply IndexByte_cons_absent in H as [Hc Hs]. simpl.
  destruct (Ascii.eqb_spec c sep); [congruence|].
  rewrite (IH Hs). reflexivity.
Qed.

Lemma Split_app_last (s t : string) (sep : ascii) :
  strings.IndexByte t sep = -1 ->
  strings.Split (s +:+ String sep t) sep = strings.Split s sep ++ [t].
Proof.
  intros Ht. induction s as [|c s IH].
  - simpl. rewrite Ascii.eqb_refl, (Split_absent t sep Ht). reflexivity.
  - change (String c s +:+ String sep t) with (String c (s +:+ String sep t)).
    simpl. rewrite IH. destruct (Ascii.eqb c sep); [reflexivity|].
    pose proof (Split_nonempty s sep) as Hne.
    destruct (strings.Split s sep); [congruence|reflexivity].
Qed.

Lemma Join_cons_byte (c : ascii) (piece : string) (pieces : list string)
    (sep : string) :
  strings.Join (String c piece :: pieces) sep =
  String c (strings.Join (piece :: pieces) sep).
Proof. destruct pieces; reflexivity. Qed.

(** Joining the pieces of a split by the separator gives the string back. *)
Lemma Join_Split (s : string) (sep : ascii) :
  strings.Join (strings.Split s sep) (String sep EmptyString) = s.
Proof.
  induction s as [|c s IH]; [reflexivity|].
  simpl strings.Split. pose proof (Split_nonempty s sep) as Hne.
  destruct (strings.Split s sep) as [|piece pieces]; [congruence|].
  destruct (Ascii.eqb_spec c sep) as [->|_].
  - change (strings.Join (EmptyString :: piece :: pieces) (String sep EmptyString))
      with (String sep (strings.Join (piece :: pieces) (String sep EmptyString))).
    rewrite IH. reflexivity.
  - rewrite Join_cons_byte, IH. reflexivity.
Qed.

(** ** Texts that [net.ParseIP] rejects at their first byte *)

Lemma parseAddrFrom_cases (whole s : string) :
  net.parseAddrFrom whole s = None \/
  net.parseAddrFrom whole s =
    option_map (fun f => (net.v4InV6Prefix ++ f, EmptyString)) (net.parseIPv4 whole) \/
  net.parseAddrFrom whole s = net.parseIPv6 whole.
Proof.
  induction s as [|c s IH]; cbn [net.parseAddrFrom]; [auto|].
  destruct (Ascii.eqb c "."); [auto|].
  destruct (Ascii.eqb c ":"); [auto|].
  destruct (Ascii.eqb c "%"); auto.
Qed.

Lemma parseIPv4_bad_start (c : ascii) (s : string) :
  net.hexVal c = None -> net.parseIPv4 (String c s) = None.
Proof.
  intros Hc. unfold net.parseIPv4. cbn [net.parseIPv4Fields].
  assert (net.isDigit c = false) as ->.
  { unfold net.hexVal in Hc. unfold net.isDigit.
    destruct ((48 <=? byteZ c) && (byteZ c <=? 57)); [discriminate|reflexivity]. }
  destruct (Ascii.eqb c "."); reflexivity.
Qed.

Lemma parseIPv6Groups_bad_start (c : ascii) (s : string) :
  net.hexVal c = None ->
  net.parseIPv6Groups 8 (String c s) [] (-1) = None.
Proof.
  intros Hc. change 8%nat with (S 7). generalize 7%nat. intros n.
  cbn [net.parseIPv6Groups length Nat.leb net.hexGroup].
  rewrite Hc. reflexivity.
Qed.

Lemma match_not_colon {A} (c : ascii) (t : string) (x : A) (f : string -> A) (g : A) :
  c <> ":"%char ->
  match String c t with
  | String ":" (String ":" EmptyString) => x
  | String ":" (String ":" s') => f s'
  | _ => g
  end = g.
Proof.
  intros H. destruct c as [[] [] [] [] [] [] [] []]; try reflexivity.
  exfalso. apply H. reflexivity.
Qed.

Lemma parseIPv6Groups_empty : net.parseIPv6Groups 8 EmptyString [] (-1) = None.
Proof. change 8%nat with (S 7). generalize 7%nat. intros n. reflexivity. Qed.

Lemma parseIPv6_bad_start (c : ascii) (s : string) :
  net.hexVal c = None -> c <> ":"%char -> net.parseIPv6 (String c s) = None.
Proof.
  intros Hc Hcolon. unfold net.parseIPv6.
  pose proof (parseIPv6Groups_bad_start c) as HG.
  pose proof parseIPv6Groups_empty as HE.
  revert HG HE. generalize (net.parseIPv6Groups 8). intros G HG HE.
  destruct (strings.IndexByte (String c s) "%" =? -1) eqn:Ei.
  - cbn [negb]. rewrite match_not_colon by exact Hcolon.
    rewrite (HG s Hc). reflexivity.
  - destruct (negb (String.eqb _ _)); [|reflexivity]. cbn [negb].
    cbn [strings.IndexByte] in *.
    destruct (Ascii.eqb c "%").
    + unfold slice. change (Z.to_nat 0) with 0%nat.
      cbn [Nat.sub String.substring]. rewrite HE. reflexivity.
    + destruct (Z.ltb_spec (strings.IndexByte s "%") 0) as [|Hi]; [discriminate|].
      replace (Z.to_nat (strings.IndexByte s "%" + 1))
        with (S (Z.to_nat (strings.IndexByte s "%"))) by lia.
      unfold slice. cbn [Nat.sub String.substring].
      rewrite match_not_colon by exact Hcolon.
      rewrite (HG _ Hc). reflexivity.
Qed.

Lemma ParseIP_bad_start (c : ascii) (s : string) :
  net.hexVal c = None -> c <> ":"%char -> net.ParseIP (String c s) = [].
Proof.
  intros Hc Hcolon. unfold net.ParseIP.
  destruct (parseAddrFrom_cases (String c s) (String c s)) as [->|[->| ->]].
  - reflexivity.
  - rewrite (parseIPv4_bad_start c s Hc). reflexivity.
  - rewrite (parseIPv6_bad_start c s Hc Hcolon). reflexivity.
Qed.

(** ** The identity that [Create] resolves *)

(** X8: without a forwarded-address header, the identity is read off the
    remote address by cutting it at its last colon: for a remote address
    [host:port] whose port holds no colon, it is the parse of [host]
    without its leading and trailing square brackets. *)
Theorem clientIP_cuts_port (r : http.Request) (host port : string) :
  http.Header_Get (http.Header r) "X-Forwarded-For" = EmptyString ->
  http.RemoteAddr r = host +:+ String ":" port ->
  strings.IndexByte port ":" = -1 ->
  clientIP r = net.ParseIP (strings.Trim host "[]").
Proof.
  intros Hh Hr Hport. unfold clientIP. rewrite Hh, Hr.
  rewrite (Split_app_last host port ":" Hport), removelast_last, Join_Split.
  reflexivity.
Qed.

Lemma clientIP_cuts_port_witness :
  clientIP Sample.helloPost = net.ParseIP "203.0.113.9" /\
  clientIP Cases.bracketedPost = net.ParseIP "2001:db8::1".
Proof.
  split.
  - apply (clientIP_cuts_port Sample.helloPost "203.0.113.9" "40000");
      reflexivity.
  - apply (clientIP_cuts_port Cases.bracketedPost "[2001:db8::1]" "443");
      reflexivity.
Defined.

(** X9: without a forwarded-address header, a remote address without any
    colon (a Unix socket's "@", an address without port) gives the nil
    identity: its only piece is taken for the port. *)
Theorem clientIP_without_port (r : http.Request) :
  http.Header_Get (http.Header r) "X-Forwarded-For" = EmptyString ->
  strings.IndexByte (http.RemoteAddr r) ":" = -1 ->
  clientIP r = [].
Proof.
  intros Hh Hr. unfold clientIP. rewrite Hh, (Split_absent _ _ Hr). reflexivity.
Qed.

Lemma clientIP_without_port_witness : clientIP Cases.socketPost = [].
Proof. apply (clientIP_without_port Cases.socketPost); reflexivity. Defined.

Lemma last_entry (header before entry : string) :
  header = entry \/ header = before +:+ String "," entry ->
  strings.IndexByte entry "," = -1 ->
  List.last (strings.Split header ",") EmptyString = entry.
Proof.
  intros [->| ->] He.
  - rewrite (Split_absent _ _ He). reflexivity.
  - rewrite (Split_app_last _ _ _ He). apply last_last.
Qed.

(** X10: when the forwarded-address header ends in an entry that is not
    empty, that entry alone decides the identity: the entries before it
    and the remote address of the connection play no part. *)
Theorem clientIP_last_entry_wins (r : http.Request) (before entry : string) :
  http.Header_Get (http.Header r) "X-Forwarded-For" = entry \/
  http.Header_Get (http.Header r) "X-Forwarded-For" = before +:+ String "," entry ->
  strings.IndexByte entry "," = -1 ->
  entry <> EmptyString ->
  clientIP r = net.ParseIP entry.
Proof.
  intros Hh He Hne.
  exact (clientIP_forwarded r entry (last_entry _ before entry Hh He) Hne).
Qed.

Lemma clientIP_last_entry_wins_witness :
  clientIP Cases.oneHopPost = net.ParseIP "5.6.7.8".
Proof.
  apply (clientIP_last_entry_wins Cases.oneHopPost "1.2.3.4" "5.6.7.8").
  - right. reflexivity.
  - reflexivity.
  - discriminate.
Defined.

(** X11: when the last entry of the forwarded-address header, or the
    whole header when it has one entry, starts with a byte that is neither
    a hex digit nor a colon, as the space after the comma of a list written
    "a, b" or the first letter of "unknown", the identity is nil, whatever
    the remote address of the connection. *)
Theorem clientIP_unparsed_entry
    (r : http.Request) (before : string) (c : ascii) (entry : string) :
  http.Header_Get (http.Header r) "X-Forwarded-For" = String c entry \/
  http.Header_Get (http.Header r) "X-Forwarded-For" =
    before +:+ String "," (String c entry) ->
  strings.IndexByte (String c entry) "," = -1 ->
  net.hexVal c = None ->
  c <> ":"%char ->
  clientIP r = [].
Proof.
  intros Hh He Hc Hcolon.
  rewrite (clientIP_forwarded r (String c entry)).
  - exact (ParseIP_bad_start c entry Hc Hcolon).
  - exact (last_entry _ before _ Hh He).
  - discriminate.
Qed.

Lemma clientIP_unparsed_entry_witness :
  clientIP Sample.twoHopPost = [] /\ clientIP Sample.unknownPost = [].
Proof.
  split.
  - apply (clientIP_unparsed_entry Sample.twoHopPost "1.2.3.4" " " "5.6.7.8").
    + right. reflexivity.
    + reflexivity.
    + reflexivity.
    + discriminate.
  - apply (clientIP_unparsed_entry Sample.unknownPost EmptyString "u" "nknown").
    + left. reflexivity.
    + reflexivity.
    + reflexivity.
    + discriminate.
Defined.

(** ** The message text *)

Lemma onlyBytes_app (cutset s t : string) :
  strings.onlyBytes cutset s = true -> strings.onlyBytes cutset t = true ->
  strings.onlyBytes cutset (s +:+ t) = true.
Proof.
  intros Hs Ht. induction s as [|c s IH]; [exact Ht|].
  simpl in Hs. apply andb_prop in Hs as [Hc Hs].
  change (String c s +:+ t) with (String c (s +:+ t)).
  simpl. rewrite Hc, (IH Hs). reflexivity.
Qed.

Lemma onlyBytes_Join (msg : list string) :
  Forall (fun v => strings.onlyBytes asciiSpace v = true) msg ->
  strings.onlyBytes asciiSpace (joined msg) = true.
Proof.
  induction 1 as [|v msg Hv Hmsg IH]; [reflexivity|].
  destruct msg as [|v' msg]; [exact Hv|].
  change (joined (v :: v' :: msg)) with (v +:+ " " +:+ joined (v' :: msg)).
  apply onlyBytes_app; [exact Hv|]. apply onlyBytes_app; [reflexivity|exact IH].
Qed.

(** X12: a message field all of whose values are made of ASCII white space
    (or are empty) is rejected as blank, however many values the field has:
    the spaces that join them do not make a message. *)
Theorem Create_rejects_white_values
    (w : World) (r : http.Request) (msg : list string) :
  http.ParseForm r = None ->
  http.Form r !! "message" = Some msg ->
  Forall (fun v => strings.onlyBytes asciiSpace v = true) msg ->
  response (log (Create w r)) =
    [WriteHeader http.StatusBadRequest; ExecuteTemplate "error.html" blankPage] /\
  lookups (log (Create w r)) = [].
Proof.
  intros Hp Hf Hws.
  rewrite (path_blank w r msg Hp Hf (TrimSpace_asciiSpace _ (onlyBytes_Join msg Hws))).
  split; reflexivity.
Qed.

Lemma Create_rejects_white_values_witness :
  response (log (Create Sample.fresh Cases.blankValues)) =
    [WriteHeader http.StatusBadRequest; ExecuteTemplate "error.html" blankPage] /\
  lookups (log (Create Sample.fresh Cases.blankValues)) = [].
Proof.
  apply (Create_rejects_white_values Sample.fresh Cases.blankValues
           ["  "; EmptyString; String LF EmptyString]).
  - reflexivity.
  - reflexivity.
  - repeat constructor.
Defined.

(** X13: the normalization of the joined text is the join of the normalized
    values: the space between two values never takes part in a line break,
    so a field with several values is normalized value by value. *)
Theorem normalized_value_by_value (msg : list string) :
  normalized msg =
  strings.Join (map (fun v => newlineRegex_ReplaceAllString v " ") msg) " ".
Proof.
  induction msg as [|v msg IH]; [reflexivity|].
  destruct msg as [|v' msg]; [reflexivity|].
  change (joined (v :: v' :: msg)) with (v +:+ " " +:+ joined (v' :: msg)).
  rewrite normalize_app by (simpl; discriminate).
  change (" " +:+ joined (v' :: msg)) with (String " " (joined (v' :: msg))).
  rewrite normalize_other by discriminate.
  rewrite IH. reflexivity.
Qed.

Lemma length_append (s t : string) :
  String.length (s +:+ t) = (String.length s + String.length t)%nat.
Proof. induction s as [|c s IH]; simpl; [reflexivity|]. rewrite IH. reflexivity. Qed.

(** X14: normalization never makes a text longer: the text that is checked
    and stored has at most the length of the text that was submitted. *)
Theorem normalization_never_longer (s : string) :
  (String.length (newlineRegex_ReplaceAllString s " ") <= String.length s)%nat.
Proof.
  induction s as [|c|c c' s IHs IHc] using string_ind2.
  - simpl. lia.
  - destruct (normalize_cases c EmptyString " ")
      as [[-> H]|[(s' & _ & E & _)|[_ H]]]; [|discriminate|]; rewrite H; simpl; lia.
  - destruct (normalize_cases c (String c' s) " ")
      as [[-> H]|[(s' & -> & E & H)|[_ H]]]; rewrite H.
    + rewrite length_append. simpl in *. lia.
    + injection E as -> ->. rewrite length_append. simpl in *. lia.
    + simpl in *. lia.
Qed.

(** ** The listing handler *)

(** The runs of [Home], by the results of the two reads. *)
Lemma Home_paths (w : listing.Reads) :
  listing.Home w =
  match listing.repo_FindAll w 200 with
  | (_, Some err) =>
    ([listing.FindAllCall 200;
      listing.LoggerError "failed to find guests" err;
      listing.WriteHeader 500], Return)
  | (guests, None) =>
    match listing.repo_Count w with
    | (_, Some err) =>
      ([listing.FindAllCall 200; listing.CountCall;
        listing.LoggerError "failed to get count" err;
        listing.WriteHeader 500], Return)
    | (count, None) =>
      ([listing.FindAllCall 200; listing.CountCall;
        listing.HeaderAdd "Content-Type" "text/html";
        listing.ExecuteTemplate "index.html"
          {| listing.Guests := guests; listing.Total := count |}], Next tt)
    end
  end.
Proof.
  unfold listing.Home, listing.FindAll, listing.Count.
  destruct (listing.repo_FindAll w 200) as [guests [e|]]; [reflexivity|].
  destruct (listing.repo_Count w) as [count [e|]]; reflexivity.
Qed.

(** X15: [Home] either renders the index page or answers 500, never both
    and never anything else.  It renders exactly when both reads of the
    repository succeeded: then it writes no status, sets the content type to
    text/html and passes to the template "index.html" the guests as
    [FindAll] returned them and the total as [Count] returned it, which
    need not be the number of guests listed.  Otherwise it renders
    nothing, sets no content type and logs one failure. *)
Theorem Home_page_or_500 (w : listing.Reads) :
  (snd (listing.repo_FindAll w 200) = None /\
   snd (listing.repo_Count w) = None /\
   listing.rendered (listing.log (listing.Home w)) =
     [("index.html",
       {| listing.Guests := fst (listing.repo_FindAll w 200);
          listing.Total := fst (listing.repo_Count w) |})] /\
   listing.headers (listing.log (listing.Home w)) = [("Content-Type", "text/html")] /\
   listing.statuses (listing.log (listing.Home w)) = [] /\
   listing.failures (listing.log (listing.Home w)) = []) \/
  ((snd (listing.repo_FindAll w 200) <> None \/
    snd (listing.repo_Count w) <> None) /\
   listing.rendered (listing.log (listing.Home w)) = [] /\
   listing.headers (listing.log (listing.Home w)) = [] /\
   listing.statuses (listing.log (listing.Home w)) = [http.StatusInternalServerError] /\
   exists m e, listing.failures (listing.log (listing.Home w)) = [(m, e)]).
Proof.
  rewrite Home_paths.
  destruct (listing.repo_FindAll w 200) as [guests [e|]].
  { right. cbn. repeat split; eauto. }
  destruct (listing.repo_Count w) as [count [e|]].
  { right. cbn. repeat split; eauto. }
  left. cbn. repeat split.
Qed.

(** X16: when [FindAll] fails, [Home] does not go on to [Count]: it logs
    "failed to find guests" with the error; when [FindAll] succeeds and
    [Count] fails, it logs "failed to get count" with that error, and the
    guests it had read are not shown. *)
Theorem Home_read_failures (w : listing.Reads) (e : error) :
  (snd (listing.repo_FindAll w 200) = Some e ->
   listing.counted (listing.log (listing.Home w)) = 0%nat /\
   listing.failures (listing.log (listing.Home w)) = [("failed to find guests", e)]) /\
  (snd (listing.repo_FindAll w 200) = None ->
   snd (listing.repo_Count w) = Some e ->
   listing.counted (listing.log (listing.Home w)) = 1%nat /\
   listing.failures (listing.log (listing.Home w)) = [("failed to get count", e)] /\
   listing.rendered (listing.log (listing.Home w)) = []).
Proof.
  rewrite Home_paths.
  destruct (listing.repo_FindAll w 200) as [guests [e1|]];
    [|destruct (listing.repo_Count w) as [count [e2|]]];
    cbn; split; intros; try discriminate; repeat split; congruence.
Qed.

Lemma Home_read_failures_witness :
  listing.counted (listing.log (listing.Home Cases.findFails)) = 0%nat /\
  listing.failures (listing.log (listing.Home Cases.countFails)) =
    [("failed to get count", "connection refused")].
Proof.
  split.
  - apply (proj1 (Home_read_failures Cases.findFails "connection refused")).
    reflexivity.
  - apply (proj2 (Home_read_failures Cases.countFails "connection refused"));
      reflexivity.
Defined.

(** ** What [Create] constructs *)

(** X18: the entry is constructed for the very identity that was looked up,
    and from the very text that the two detectors examined. *)
Theorem Create_constructs_what_it_checked
    (w : World) (r : http.Request) (text : string) (ip : net.IP) :
  In (NewGuestCall text ip) (log (Create w r)) ->
  lookups (log (Create w r)) = [ip] /\
  In (IsProfaneCall text) (log (Create w r)) /\
  In (MatchStringCall text) (log (Create w r)) /\
  goaway_IsProfane w text = false /\
  linkRegex_MatchString w text = false.
Proof.
  on_paths.
  repeat split_path; cbn; intros H;
    try solve [exfalso; intuition discriminate];
    match goal with
    | Hf : http.Form r !! _ = Some ?msg |- _ =>
      (assert (NewGuestCall (normalized msg) (clientIP r) = NewGuestCall text ip)
         as E by intuition congruence);
      injection E as <- <-; repeat split; auto 10
    end.
Qed.

Lemma Create_constructs_what_it_checked_witness :
  lookups (log (Create Sample.fresh Sample.twoLinePost)) =
    [clientIP Sample.twoLinePost] /\
  In (IsProfaneCall "Hello world") (log (Create Sample.fresh Sample.twoLinePost)) /\
  In (MatchStringCall "Hello world") (log (Create Sample.fresh Sample.twoLinePost)) /\
  goaway_IsProfane Sample.fresh "Hello world" = false /\
  linkRegex_MatchString Sample.fresh "Hello world" = false.
Proof.
  apply (Create_constructs_what_it_checked Sample.fresh Sample.twoLinePost).
  vm_compute. tauto.
Defined.
